(** * Postgres Flex database resource: the state-reconciliation adapter

    A shallow embedding of
    [stackit/internal/services/postgresflex/database/resource.go]
    and the properties of its lifecycle handlers, of the read-mapping
    [mapFields], of the create-payload builder [toCreatePayload] and of the
    lookup-by-scan [getDatabase].

    Go values are modelled as the code has them: a pointer that may be nil
    is an [option], a [(T, error)] result is a pair of options, a Go map is
    a [gmap], a loop over a slice is a structural recursion over a list and
    the remote calls of a handler are threaded through a small state monad
    that records them. *)

From Stdlib Require Import ZArith Ascii String List.
From stdpp Require Import gmap strings list fin_maps.

Local Open Scope string_scope.

(* ===================================================================== *)
(** ** Go's [strings] package, as far as the resource uses it *)
(* ===================================================================== *)

Module strings.

(** [strings.Join(elems, sep)]. *)
Definition Join (elems : list string) (sep : string) : string :=
  String.concat sep elems.

(** [strings.Split(s, "")] explodes [s]; the model works on bytes, which
    is what Go does on ASCII input. *)
Fixpoint explode (s : string) : list string :=
  match s with
  | EmptyString => []
  | String c s' => String c EmptyString :: explode s'
  end.

(** The loop of [strings.Split] for a non-empty separator: the leftmost
    occurrence of [sep] ends the current piece, the bytes of that
    occurrence are skipped ([skip] counts the ones left), and the scan
    goes on behind it.  [cur] is the piece read so far. *)
Fixpoint genSplit (sep : string) (skip : nat) (cur s : string) : list string :=
  match s with
  | EmptyString => [cur]
  | String c s' =>
      match skip with
      | S k => genSplit sep k cur s'
      | O =>
          if String.prefix sep s
          then cur :: genSplit sep (String.length sep - 1) EmptyString s'
          else genSplit sep 0 (cur +:+ String c EmptyString) s'
      end
  end.

(** [strings.Split(s, sep)]. *)
Definition Split (s sep : string) : list string :=
  match sep with
  | EmptyString => explode s
  | String _ _ => genSplit sep 0 EmptyString s
  end.

(** [strings.Contains(s, substr)]. *)
Fixpoint Contains (s substr : string) : bool :=
  String.prefix substr s ||
  match s with
  | EmptyString => false
  | String _ s' => Contains s' substr
  end.

End strings.

(* ===================================================================== *)
(** ** [types.String] of the plugin framework *)
(* ===================================================================== *)

Module types.

(** A framework string is null, unknown or a known Go string. *)
Inductive String_ : Type :=
| StringNull
| StringUnknown
| StringValue (value : string).

(** [ValueString]: the known value, the empty string otherwise. *)
Definition ValueString (s : String_) : string :=
  match s with
  | StringValue v => v
  | StringNull | StringUnknown => ""
  end.

(** [ValueStringPointer]: nil for null, else a pointer to [ValueString]. *)
Definition ValueStringPointer (s : String_) : option string :=
  match s with
  | StringNull => None
  | StringUnknown => Some ""
  | StringValue v => Some v
  end.

(** [StringPointerValue]: null for a nil pointer, else the known value. *)
Definition StringPointerValue (p : option string) : String_ :=
  match p with
  | None => StringNull
  | Some v => StringValue v
  end.

End types.

(* ===================================================================== *)
(** ** Errors and diagnostics *)
(* ===================================================================== *)

(** The dynamic type of a Go [error] value reaching the resource:
    [fmt.Errorf] without a wrapping verb gives a plain error string, the
    SDK reports HTTP failures as [oapierror.GenericOpenAPIError], and the
    transport can fail with anything else. [Message] is what [Error()]
    returns. *)
Inductive error : Type :=
| errorString (Message : string)
| GenericOpenAPIError (StatusCode : Z) (Message : string)
| otherError (Message : string).

Definition Error (e : error) : string :=
  match e with
  | errorString m | GenericOpenAPIError _ m | otherError m => m
  end.

(** [fmt.Errorf] with a constant format. *)
Definition Errorf (msg : string) : error := errorString msg.

(** The type assertion of [Read] on the SDK's generic OpenAPI error: the
    status code when the assertion holds. *)
Definition asGenericOpenAPIError (e : error) : option Z :=
  match e with
  | GenericOpenAPIError code _ => Some code
  | errorString _ | otherError _ => None
  end.

Definition StatusNotFound : Z := 404.

Module diag.

Inductive Severity : Type := SeverityError | SeverityWarning.

Record Diagnostic : Type := mkDiagnostic {
  severity : Severity;
  summary : string;
  detail : string
}.

Definition Diagnostics : Type := list Diagnostic.

Definition Severity_eqb (a b : Severity) : bool :=
  match a, b with
  | SeverityError, SeverityError | SeverityWarning, SeverityWarning => true
  | _, _ => false
  end.

(** [Diagnostic.Equal]. *)
Definition Diagnostic_Equal (a b : Diagnostic) : bool :=
  Severity_eqb (severity a) (severity b)
  && String.eqb (summary a) (summary b)
  && String.eqb (detail a) (detail b).

Definition Contains (diags : Diagnostics) (d : Diagnostic) : bool :=
  existsb (Diagnostic_Equal d) diags.

(** [Diagnostics.Append] of one diagnostic: duplicates are dropped. *)
Definition Append (diags : Diagnostics) (d : Diagnostic) : Diagnostics :=
  if Contains diags d then diags else (diags ++ [d])%list.

Definition HasError (diags : Diagnostics) : bool :=
  existsb (fun d => Severity_eqb (severity d) SeverityError) diags.

Definition AddError (diags : Diagnostics) (s d : string) : Diagnostics :=
  Append diags (mkDiagnostic SeverityError s d).

Definition AddWarning (diags : Diagnostics) (s d : string) : Diagnostics :=
  Append diags (mkDiagnostic SeverityWarning s d).

End diag.

Module core.

(** Modelled from the spec: [core.Separator], a constant of the
    repository's [core] package, which is not part of the sources at
    hand.  The spec's Create scenario gives the composite id [p,i,db-1]
    and the schema of the resource describes the id as the three
    identifiers separated by commas. *)
Definition Separator : string := ",".

(** Modelled from the spec: [core.LogAndAddError], a helper of the
    repository's [core] package, which is not part of the sources at
    hand.  Errors are surfaced to the driver's diagnostics collector with
    a short title and a detailed message; logging has no effect on the
    model. *)
Definition LogAndAddError (diags : diag.Diagnostics) (s d : string)
  : diag.Diagnostics :=
  diag.AddError diags s d.

(** Modelled from the spec: [core.LogAndAddWarning], the same helper for
    a non-fatal warning. *)
Definition LogAndAddWarning (diags : diag.Diagnostics) (s d : string)
  : diag.Diagnostics :=
  diag.AddWarning diags s d.

End core.

(* ===================================================================== *)
(** ** The SDK's [postgresflex] types *)
(* ===================================================================== *)

(** A value of Go's empty interface, as JSON decoding produces it. *)
#[warnings="-register-all"]
Inductive any : Type :=
| anyNil
| anyBool (b : bool)
| anyFloat64 (bits : Z)
| anyString (s : string)
| anySlice (l : list any)
| anyMap (l : list (string * any)).

(** [owner.(string)]. *)
Definition asString (v : any) : option string :=
  match v with
  | anyString s => Some s
  | _ => None
  end.

Module InstanceDatabase.
Record t : Type := mk {
  Id : option string;
  Name : option string;
  Options : option (gmap string any)
}.
End InstanceDatabase.

Module CreateDatabasePayload.
Record t : Type := mk {
  Name : option string;
  Options : option (gmap string string)
}.
End CreateDatabasePayload.

Module InstanceCreateDatabaseResponse.
Record t : Type := mk { Id : option string }.
End InstanceCreateDatabaseResponse.

Module InstanceListDatabasesResponse.
Record t : Type := mk { Databases : option (list InstanceDatabase.t) }.
End InstanceListDatabasesResponse.

(** What the three remote operations answer when executed.  The transport
    behind them is not part of the resource. *)
Record APIClient : Type := mkAPIClient {
  CreateDatabase :
    string -> string -> CreateDatabasePayload.t ->
    option InstanceCreateDatabaseResponse.t * option error;
  ListDatabases :
    string -> string ->
    option InstanceListDatabasesResponse.t * option error;
  DeleteDatabase : string -> string -> string -> option error
}.

(** A remote call the resource made. *)
Inductive ApiCall : Type :=
| CallCreateDatabase (projectId instanceId : string)
    (payload : CreateDatabasePayload.t)
| CallListDatabases (projectId instanceId : string)
| CallDeleteDatabase (projectId instanceId databaseId : string).

(* ===================================================================== *)
(** ** Running a handler: remote calls and nil dereferences *)
(* ===================================================================== *)

(** A Go function body either returns or panics. *)
Inductive Outcome (A : Type) : Type :=
| Returned (a : A)
| Panicked.
Arguments Returned {A} a.
Arguments Panicked {A}.

(** A computation that may call the remote service: it threads the log of
    the calls made so far. *)
Definition Api (A : Type) : Type := list ApiCall -> Outcome A * list ApiCall.

#[global] Instance Api_ret : MRet Api :=
  fun A (a : A) log => (Returned a, log).

#[global] Instance Api_bind : MBind Api :=
  fun A B (k : A -> Api B) (c : Api A) log =>
    match c log with
    | (Returned a, log') => k a log'
    | (Panicked, log') => (Panicked, log')
    end.

Definition ret {A} (a : A) : Api A := mret a.

(** [*p]: dereferencing nil panics. *)
Definition deref {A} (p : option A) : Api A :=
  fun log =>
    match p with
    | Some a => (Returned a, log)
    | None => (Panicked, log)
    end.

(** [p != nil]. *)
Definition notNil {A} (p : option A) : bool :=
  match p with Some _ => true | None => false end.

(** [a && b]: [b] is evaluated only when [a] holds. *)
Definition andThen (a : bool) (b : Api bool) : Api bool :=
  if a then b else ret false.

(** Executing a request on the client records the call. *)
Definition ListDatabasesExecute (client : APIClient) (projectId instanceId : string)
  : Api (option InstanceListDatabasesResponse.t * option error) :=
  fun log =>
    (Returned (ListDatabases client projectId instanceId),
     (log ++ [CallListDatabases projectId instanceId])%list).

Definition CreateDatabaseExecute (client : APIClient) (projectId instanceId : string)
    (payload : CreateDatabasePayload.t)
  : Api (option InstanceCreateDatabaseResponse.t * option error) :=
  fun log =>
    (Returned (CreateDatabase client projectId instanceId payload),
     (log ++ [CallCreateDatabase projectId instanceId payload])%list).

Definition DeleteDatabaseExecute (client : APIClient)
    (projectId instanceId databaseId : string) : Api (option error) :=
  fun log =>
    (Returned (DeleteDatabase client projectId instanceId databaseId),
     (log ++ [CallDeleteDatabase projectId instanceId databaseId])%list).

(* ===================================================================== *)
(** ** The declarative record *)
(* ===================================================================== *)

Record Model : Type := mkModel {
  Id : types.String_;
  DatabaseId : types.String_;
  InstanceId : types.String_;
  ProjectId : types.String_;
  Name : types.String_;
  Owner : types.String_
}.

Definition set_Id (v : types.String_) (m : Model) : Model :=
  mkModel v (DatabaseId m) (InstanceId m) (ProjectId m) (Name m) (Owner m).
Definition set_DatabaseId (v : types.String_) (m : Model) : Model :=
  mkModel (Id m) v (InstanceId m) (ProjectId m) (Name m) (Owner m).
Definition set_InstanceId (v : types.String_) (m : Model) : Model :=
  mkModel (Id m) (DatabaseId m) v (ProjectId m) (Name m) (Owner m).
Definition set_ProjectId (v : types.String_) (m : Model) : Model :=
  mkModel (Id m) (DatabaseId m) (InstanceId m) v (Name m) (Owner m).
Definition set_Name (v : types.String_) (m : Model) : Model :=
  mkModel (Id m) (DatabaseId m) (InstanceId m) (ProjectId m) v (Owner m).
Definition set_Owner (v : types.String_) (m : Model) : Model :=
  mkModel (Id m) (DatabaseId m) (InstanceId m) (ProjectId m) (Name m) v.

(** The resource implementation once it is configured: [client] is the
    client [r.client] points to.  The pointer itself, nil before
    [Configure], is treated with [getDatabase_ptr], [Read_ptr], [Create_ptr]
    and [Delete_ptr] below. *)
Record databaseResource : Type := mkDatabaseResource { client : APIClient }.

(* ===================================================================== *)
(** ** [mapFields], [toCreatePayload], [getDatabase] *)
(* ===================================================================== *)

(** [s != ""]. *)
Definition nonEmpty (s : string) : bool := negb (String.eqb s "").

(** [mapFields(databaseResp, model)]: the returned error and the record
    [model] points to when the function returns.  The writes to the record
    happen in the order of the source, so the record an error leaves behind
    is the one written so far. *)
Definition mapFields (databaseResp : option InstanceDatabase.t)
    (model : option Model) : option error * option Model :=
  match databaseResp with
  | None => (Some (Errorf "response is nil"), model)
  | Some resp =>
      match InstanceDatabase.Id resp with
      | None => (Some (Errorf "id not present"), model)
      | Some respId =>
          if String.eqb respId "" then (Some (Errorf "id not present"), model)
          else
            match model with
            | None => (Some (Errorf "model input is nil"), None)
            | Some m =>
                match (if nonEmpty (types.ValueString (DatabaseId m))
                       then Some (types.ValueString (DatabaseId m))
                       else InstanceDatabase.Id resp) with
                | None => (Some (Errorf "database id not present"), Some m)
                | Some databaseId =>
                    let idParts :=
                      [ types.ValueString (ProjectId m);
                        types.ValueString (InstanceId m);
                        databaseId ] in
                    let m := set_Id (types.StringValue
                                       (strings.Join idParts core.Separator)) m in
                    let m := set_DatabaseId (types.StringValue databaseId) m in
                    let m := set_Name (types.StringPointerValue
                                         (InstanceDatabase.Name resp)) m in
                    match InstanceDatabase.Options resp with
                    | None => (None, Some m)
                    | Some options =>
                        match options !! "owner" with
                        | None => (None, Some m)
                        | Some owner =>
                            match asString owner with
                            | None =>
                                (Some (Errorf "owner is not a string"), Some m)
                            | Some ownerStr =>
                                (None,
                                 Some (set_Owner (types.StringValue ownerStr) m))
                            end
                        end
                    end
                end
            end
      end
  end.

(** [toCreatePayload(model)]. *)
Definition toCreatePayload (model : option Model)
  : option CreateDatabasePayload.t * option error :=
  match model with
  | None => (None, Some (Errorf "nil model"))
  | Some m =>
      (Some (CreateDatabasePayload.mk
               (types.ValueStringPointer (Name m))
               (Some {[ "owner" := types.ValueString (Owner m) ]})),
       None)
  end.

(** The [for ... range] loop of [getDatabase] and the return behind it. *)
Fixpoint getDatabase_range (databases : list InstanceDatabase.t)
    (databaseId : string) : Api (option InstanceDatabase.t * option error) :=
  match databases with
  | [] => ret (None, Some (Errorf "database not found"))
  | database :: rest =>
      found ← andThen (notNil (InstanceDatabase.Id database))
                (id ← deref (InstanceDatabase.Id database);
                 ret (String.eqb id databaseId));
      if (found : bool) then ret (Some database, None)
      else getDatabase_range rest databaseId
  end.

(** [getDatabase(ctx, client, projectId, instanceId, databaseId)]: the API
    has no endpoint for one database, only the list. *)
Definition getDatabase (client : APIClient)
    (projectId instanceId databaseId : string)
  : Api (option InstanceDatabase.t * option error) :=
  '(resp, err) ← ListDatabasesExecute client projectId instanceId;
  match err with
  | Some e => ret (None, Some e)
  | None =>
      match resp with
      | None => ret (None, Some (Errorf "response is nil"))
      | Some resp =>
          if notNil (InstanceListDatabasesResponse.Databases resp)
          then
            databases ← deref (InstanceListDatabasesResponse.Databases resp);
            getDatabase_range databases databaseId
          else ret (None, Some (Errorf "response is nil"))
      end
  end.

(* ===================================================================== *)
(** ** The driver's side: state, requests and responses *)
(* ===================================================================== *)

Module tfsdk.

(** The state of the resource as the driver holds it: the record, or
    nothing once the resource is removed (or not yet there). *)
Definition State : Type := option Model.

(** [path.Root] of an attribute of the schema, by its [tfsdk] tag. *)
Inductive Attribute : Type :=
| Root_id | Root_database_id | Root_instance_id
| Root_project_id | Root_name | Root_owner.

Definition nullModel : Model :=
  mkModel types.StringNull types.StringNull types.StringNull
          types.StringNull types.StringNull types.StringNull.

(** [State.Set(ctx, model)]. *)
Definition StateSet (model : Model) (st : State) : State := Some model.

(** [State.RemoveResource(ctx)]. *)
Definition RemoveResource (st : State) : State := None.

(** [State.SetAttribute(ctx, path.Root(a), v)] with a Go string [v]. *)
Definition SetAttribute (a : Attribute) (v : string) (st : State) : State :=
  let m := default nullModel st in
  let v := types.StringValue v in
  Some match a with
       | Root_id => set_Id v m
       | Root_database_id => set_DatabaseId v m
       | Root_instance_id => set_InstanceId v m
       | Root_project_id => set_ProjectId v m
       | Root_name => set_Name v m
       | Root_owner => set_Owner v m
       end.

End tfsdk.

Module resource.

(** The response of a lifecycle call: the state to store and the
    diagnostics collected. *)
Record Response : Type := mkResponse {
  State : tfsdk.State;
  Diagnostics : diag.Diagnostics
}.

(** A request carries the plan or the state as the record it decodes
    into: [Plan.Get] and [State.Get] into a [Model] give no diagnostics, and
    neither do [State.Set] and [State.SetAttribute] of a string. *)
Module CreateRequest.
Record t : Type := mk { Plan : Model }.
End CreateRequest.

Module ReadRequest.
Record t : Type := mk { State : Model }.
End ReadRequest.

Module UpdateRequest.
Record t : Type := mk { Plan : Model; State : Model }.
End UpdateRequest.

Module DeleteRequest.
Record t : Type := mk { State : Model }.
End DeleteRequest.

Module ImportStateRequest.
Record t : Type := mk { ID : string }.
End ImportStateRequest.

End resource.

Import resource.

(** [core.LogAndAddError(ctx, &resp.Diagnostics, summary, detail)]. *)
Definition addError (resp : Response) (s d : string) : Response :=
  mkResponse (State resp) (core.LogAndAddError (Diagnostics resp) s d).

Definition addWarning (resp : Response) (s d : string) : Response :=
  mkResponse (State resp) (core.LogAndAddWarning (Diagnostics resp) s d).

(** A write to [resp.State]. *)
Definition onState (f : tfsdk.State -> tfsdk.State) (resp : Response) : Response :=
  mkResponse (f (State resp)) (Diagnostics resp).

(* ===================================================================== *)
(** ** The lifecycle handlers *)
(* ===================================================================== *)

(** The test of [Create] on the answer of the create call, which fails
    when the response is nil, its [Id] is nil or its [Id] is empty: the id
    the answer carries when the test passes. *)
Definition returnedId (databaseResp : option InstanceCreateDatabaseResponse.t)
  : option string :=
  match databaseResp with
  | None => None
  | Some databaseResp =>
      match InstanceCreateDatabaseResponse.Id databaseResp with
      | None => None
      | Some id => if nonEmpty id then Some id else None
      end
  end.

(** [Create]: the plan decodes into the local [model]; [mapFields] gets a
    pointer to that local, so the record it leaves is the local's value. *)
Definition Create (r : databaseResource) (req : CreateRequest.t)
    (resp : Response) : Api Response :=
  let model := CreateRequest.Plan req in
  if diag.HasError (Diagnostics resp) then ret resp else
  let projectId := types.ValueString (ProjectId model) in
  let instanceId := types.ValueString (InstanceId model) in
  let '(payload, err) := toCreatePayload (Some model) in
  match err with
  | Some e =>
      ret (addError resp "Error creating database"
             ("Creating API payload: " +:+ Error e))
  | None =>
      payload ← deref payload;
      '(databaseResp, err) ←
         CreateDatabaseExecute (client r) projectId instanceId payload;
      match err with
      | Some e =>
          ret (addError resp "Error creating database"
                 ("Calling API: " +:+ Error e))
      | None =>
          match returnedId databaseResp with
          | None =>
              ret (addError resp "Error creating database"
                     "API didn't return database Id. A database might have been created")
          | Some databaseId =>
              '(database, err) ←
                 getDatabase (client r) projectId instanceId databaseId;
              match err with
              | Some e =>
                  ret (addError resp "Error creating database"
                         ("Getting database details after creation: "
                            +:+ Error e))
              | None =>
                  let '(err, model') := mapFields database (Some model) in
                  let model := default model model' in
                  match err with
                  | Some e =>
                      ret (addError resp "Error creating database"
                             ("Processing API payload: " +:+ Error e))
                  | None => ret (onState (tfsdk.StateSet model) resp)
                  end
              end
          end
      end
  end.

(** [Read]. *)
Definition Read (r : databaseResource) (req : ReadRequest.t)
    (resp : Response) : Api Response :=
  let model := ReadRequest.State req in
  if diag.HasError (Diagnostics resp) then ret resp else
  let projectId := types.ValueString (ProjectId model) in
  let instanceId := types.ValueString (InstanceId model) in
  let databaseId := types.ValueString (DatabaseId model) in
  '(databaseResp, err) ← getDatabase (client r) projectId instanceId databaseId;
  match err with
  | Some e =>
      let oapiErr := asGenericOpenAPIError e in
      if match oapiErr with
         | Some StatusCode => Z.eqb StatusCode StatusNotFound
         | None => false
         end
      then ret (onState tfsdk.RemoveResource resp)
      else ret (addError resp "Error reading database"
                  ("Calling API: " +:+ Error e))
  | None =>
      let '(err, model') := mapFields databaseResp (Some model) in
      let model := default model model' in
      match err with
      | Some e =>
          ret (addError resp "Error reading database"
                 ("Processing API payload: " +:+ Error e))
      | None => ret (onState (tfsdk.StateSet model) resp)
      end
  end.

(** [Update]: it should never be called. *)
Definition Update (r : databaseResource) (req : UpdateRequest.t)
    (resp : Response) : Api Response :=
  ret (addError resp "Error updating database" "Database can't be updated").

(** [Delete]. *)
Definition Delete (r : databaseResource) (req : DeleteRequest.t)
    (resp : Response) : Api Response :=
  let model := DeleteRequest.State req in
  if diag.HasError (Diagnostics resp) then ret resp else
  let projectId := types.ValueString (ProjectId model) in
  let instanceId := types.ValueString (InstanceId model) in
  let databaseId := types.ValueString (DatabaseId model) in
  err ← DeleteDatabaseExecute (client r) projectId instanceId databaseId;
  match err with
  | Some e =>
      ret (addError resp "Error deleting database" ("Calling API: " +:+ Error e))
  | None => ret resp
  end.

Section ImportState.

(** The [%q] verb of [fmt.Sprintf]: Go's quoting of a string.  Only the
    text of the error detail depends on it. *)
Variable Quote : string -> string.

(** [ImportState]: the identifier has the format
    project_id,instance_id,database_id. *)
Definition ImportState (r : databaseResource) (req : ImportStateRequest.t)
    (resp : Response) : Api Response :=
  let idParts := strings.Split (ImportStateRequest.ID req) core.Separator in
  match idParts with
  | [part0; part1; part2] =>
      if String.eqb part0 "" || String.eqb part1 "" || String.eqb part2 ""
      then
        ret (addError resp "Error importing database"
               ("Expected import identifier with format [project_id],[instance_id],[database_id], got "
                  +:+ Quote (ImportStateRequest.ID req)))
      else
        let resp := onState (tfsdk.SetAttribute tfsdk.Root_project_id part0) resp in
        let resp := onState (tfsdk.SetAttribute tfsdk.Root_instance_id part1) resp in
        let resp := onState (tfsdk.SetAttribute tfsdk.Root_database_id part2) resp in
        ret (addWarning resp
               "Postgresflex database imported with empty password"
               "The database password is not imported as it is only available upon creation of a new database. The password field will be empty.")
  | _ =>
      ret (addError resp "Error importing database"
             ("Expected import identifier with format [project_id],[instance_id],[database_id], got "
                +:+ Quote (ImportStateRequest.ID req)))
  end.

End ImportState.

(* ===================================================================== *)
(** ** The handlers on a resource that may not be configured *)
(* ===================================================================== *)

(** In the source the field [r.client] is a pointer, nil until [Configure]
    assigns it, and building a request of the SDK ([ListDatabases],
    [CreateDatabase], [DeleteDatabase]) through a nil client panics.
    [getDatabase] uses the client at once; [Read], [Create] and [Delete]
    reach their first use of it behind the check of the diagnostics, with
    nothing in between that can fail; [Update] and [ImportState] never use
    it. *)
Definition getDatabase_ptr (client : option APIClient)
    (projectId instanceId databaseId : string)
  : Api (option InstanceDatabase.t * option error) :=
  client ← deref client;
  getDatabase client projectId instanceId databaseId.

Definition Read_ptr (client : option APIClient) (req : ReadRequest.t)
    (resp : Response) : Api Response :=
  if diag.HasError (Diagnostics resp) then ret resp
  else client ← deref client; Read (mkDatabaseResource client) req resp.

Definition Create_ptr (client : option APIClient) (req : CreateRequest.t)
    (resp : Response) : Api Response :=
  if diag.HasError (Diagnostics resp) then ret resp
  else client ← deref client; Create (mkDatabaseResource client) req resp.

Definition Delete_ptr (client : option APIClient) (req : DeleteRequest.t)
    (resp : Response) : Api Response :=
  if diag.HasError (Diagnostics resp) then ret resp
  else client ← deref client; Delete (mkDatabaseResource client) req resp.

(* ===================================================================== *)
(** ** [Metadata], [Configure] and [Schema] *)
(* ===================================================================== *)

(** [Metadata]: the type name of the resource, from the provider's. *)
Definition Metadata (ProviderTypeName : string) : string :=
  ProviderTypeName +:+ "_postgresflex_database".

Section Configure.

(** [http.RoundTripper]: the resource hands it on and never calls it. *)
Variable http_RoundTripper : Type.

(** The options of the SDK's [config] package the resource builds. *)
Inductive ConfigurationOption : Type :=
| WithCustomAuth (rt : http_RoundTripper)
| WithEndpoint (endpoint : string)
| WithRegion (region : string).

(** Modelled from the spec: [core.ProviderData], a struct of the
    repository's [core] package, which is not part of the sources at hand:
    the credentials and the endpoint or region the client is built from.
    The fields are the ones [Configure] reads. *)
Record core_ProviderData : Type := mkProviderData {
  RoundTripper : http_RoundTripper;
  Region : string;
  PostgresFlexCustomEndpoint : string
}.

(** What [req.ProviderData], a value of the empty interface, holds when it
    is not nil: a [core.ProviderData], or a value of another type, of which
    only the name of the type is read (the [%T] verb). *)
Inductive ProviderDataValue : Type :=
| isProviderData (providerData : core_ProviderData)
| otherValue (goType : string).

(** [postgresflex.NewAPIClient] of the SDK. *)
Variable NewAPIClient :
  list ConfigurationOption -> option APIClient * option error.

(** [Configure]: [client] is the field [r.client] before the call, a
    pointer that is nil until a call assigns it; the result is the field
    and [resp.Diagnostics] after the call. *)
Definition Configure (client : option APIClient)
    (ProviderData : option ProviderDataValue) (diagnostics : diag.Diagnostics)
  : option APIClient * diag.Diagnostics :=
  match ProviderData with
  | None => (client, diagnostics)
  | Some (otherValue goType) =>
      (client,
       core.LogAndAddError diagnostics "Error configuring API client"
         ("Expected configure type stackit.ProviderData, got " +:+ goType))
  | Some (isProviderData providerData) =>
      let '(apiClient, err) :=
        if nonEmpty (PostgresFlexCustomEndpoint providerData)
        then NewAPIClient
               [ WithCustomAuth (RoundTripper providerData);
                 WithEndpoint (PostgresFlexCustomEndpoint providerData) ]
        else NewAPIClient
               [ WithCustomAuth (RoundTripper providerData);
                 WithRegion (Region providerData) ] in
      match err with
      | Some e =>
          (client,
           core.LogAndAddError diagnostics "Error configuring API client"
             ("Configuring client: " +:+ Error e
                +:+ ". This is an error related to the provider configuration, not to the resource configuration"))
      | None => (apiClient, diagnostics)
      end
  end.

End Configure.

Arguments WithCustomAuth {_} rt.
Arguments WithEndpoint {_} endpoint.
Arguments WithRegion {_} region.
Arguments mkProviderData {_} _ _ _.
Arguments RoundTripper {_} _.
Arguments Region {_} _.
Arguments PostgresFlexCustomEndpoint {_} _.
Arguments isProviderData {_} providerData.
Arguments otherValue {_} goType.
Arguments Configure {_} NewAPIClient client ProviderData diagnostics.

Module schema.

(** The plan modifiers of [stringplanmodifier] the schema uses. *)
Inductive PlanModifier : Type := UseStateForUnknown | RequiresReplace.

(** The validators of the repository's [validate] package the schema
    names. *)
Inductive Validator : Type := NoSeparator | UUID.

Module StringAttribute.
Record t : Type := mk {
  Description : string;
  Required : bool;
  Computed : bool;
  PlanModifiers : list PlanModifier;
  Validators : list Validator
}.
End StringAttribute.

Record Schema : Type := mkSchema {
  Description : string;
  Attributes : gmap string StringAttribute.t
}.

End schema.

(** A double quote and a backquote, for the descriptions. *)
Definition dquote : string := String (Ascii.ascii_of_nat 34) EmptyString.
Definition bquote (s : string) : string := "`" +:+ s +:+ "`".

(** The [descriptions] map of [Schema]. *)
Definition descriptions : gmap string string :=
  list_to_map
    [ ("main", "Postgres Flex database resource schema. Must have a `region` specified in the provider configuration.");
      ("id", "Terraform's internal resource ID. It is structured as "
               +:+ dquote +:+ bquote "project_id" +:+ "," +:+ bquote "instance_id"
               +:+ "," +:+ bquote "database_id" +:+ dquote +:+ ".");
      ("database_id", "Database ID.");
      ("instance_id", "ID of the Postgres Flex instance.");
      ("project_id", "STACKIT project ID to which the instance is associated.");
      ("name", "Database name.");
      ("owner", "Username of the database owner.") ].

(** [Schema]: what the handler writes to [resp.Schema].  Indexing a Go
    map gives the empty string for a missing key. *)
Definition Schema : schema.Schema :=
  schema.mkSchema (descriptions !!! "main")
    (list_to_map
       [ ("id",
          schema.StringAttribute.mk (descriptions !!! "id") false true
            [schema.UseStateForUnknown] []);
         ("database_id",
          schema.StringAttribute.mk (descriptions !!! "database_id") false true
            [schema.UseStateForUnknown] [schema.NoSeparator]);
         ("instance_id",
          schema.StringAttribute.mk (descriptions !!! "instance_id") true false
            [schema.RequiresReplace; schema.UseStateForUnknown]
            [schema.UUID; schema.NoSeparator]);
         ("project_id",
          schema.StringAttribute.mk (descriptions !!! "project_id") true false
            [schema.RequiresReplace; schema.UseStateForUnknown]
            [schema.UUID; schema.NoSeparator]);
         ("name",
          schema.StringAttribute.mk (descriptions !!! "name") true false
            [schema.RequiresReplace] []);
         ("owner",
          schema.StringAttribute.mk (descriptions !!! "owner") true false
            [schema.RequiresReplace] []) ]).

(* ===================================================================== *)
(** ** Forms the statements use *)
(* ===================================================================== *)

(** The database id [mapFields] settles on: the record's, when it has
    one, else the remote object's. *)
Definition resolvedDatabaseId (respId : string) (m : Model) : string :=
  if nonEmpty (types.ValueString (DatabaseId m))
  then types.ValueString (DatabaseId m)
  else respId.

(** The record after the three unconditional writes of [mapFields]. *)
Definition mapped (resp : InstanceDatabase.t) (respId : string) (m : Model)
  : Model :=
  mkModel
    (types.StringValue
       (strings.Join [ types.ValueString (ProjectId m);
                       types.ValueString (InstanceId m);
                       resolvedDatabaseId respId m ] core.Separator))
    (types.StringValue (resolvedDatabaseId respId m))
    (InstanceId m) (ProjectId m)
    (types.StringPointerValue (InstanceDatabase.Name resp))
    (Owner m).

(** The test of the loop, without the pointer: the element has an id and
    it is the target. *)
Definition matches (databaseId : string) (database : InstanceDatabase.t) : bool :=
  match InstanceDatabase.Id database with
  | Some id => String.eqb id databaseId
  | None => false
  end.

(** What [getDatabase] returns for an answer of the list call: the error
    of the call, the error for a nil response or a nil list, and else the
    first element that passes the test of the loop. *)
Definition lookupIn
    (answer : option InstanceListDatabasesResponse.t * option error)
    (databaseId : string) : option InstanceDatabase.t * option error :=
  let '(resp, err) := answer in
  match err with
  | Some e => (None, Some e)
  | None =>
      match resp with
      | None => (None, Some (Errorf "response is nil"))
      | Some resp =>
          match InstanceListDatabasesResponse.Databases resp with
          | None => (None, Some (Errorf "response is nil"))
          | Some databases =>
              match List.find (matches databaseId) databases with
              | Some database => (Some database, None)
              | None => (None, Some (Errorf "database not found"))
              end
          end
      end
  end.

(** The payload [Create] sends for a planned record. *)
Definition payloadOf (m : Model) : CreateDatabasePayload.t :=
  CreateDatabasePayload.mk (types.ValueStringPointer (Name m))
    (Some {[ "owner" := types.ValueString (Owner m) ]}).

(** The remote object a service echoing a create payload would list: the
    name of the payload and its options as strings. *)
Definition echo (respId : string) (payload : CreateDatabasePayload.t)
  : InstanceDatabase.t :=
  InstanceDatabase.mk (Some respId) (CreateDatabasePayload.Name payload)
    match CreateDatabasePayload.Options payload with
    | Some options => Some (anyString <$> options)
    | None => None
    end.

(** The status test of [Read] on a lookup error. *)
Definition isNotFound (e : error) : bool :=
  match asGenericOpenAPIError e with
  | Some StatusCode => Z.eqb StatusCode StatusNotFound
  | None => false
  end.

(** An element of the list without an [Id]. *)
Definition nullId (rest : option string * option (gmap string any))
  : InstanceDatabase.t :=
  InstanceDatabase.mk None rest.1 rest.2.

(** The composite id of a record: its three identifiers joined with the
    separator, project first. *)
Abbreviation compositeId m :=
  (strings.Join [ types.ValueString (ProjectId m);
                  types.ValueString (InstanceId m);
                  types.ValueString (DatabaseId m) ] core.Separator).

(** The detail of the error [ImportState] reports. *)
Abbreviation importError Quote raw :=
  (diag.mkDiagnostic diag.SeverityError "Error importing database"
     ("Expected import identifier with format [project_id],[instance_id],[database_id], got "
        +:+ Quote raw)).

(* ===================================================================== *)
(** ** Sample data *)
(* ===================================================================== *)

(** A record as the driver stores it after a create. *)
Definition storedRecord : Model :=
  mkModel types.StringNull (types.StringValue "db-1")
          (types.StringValue "i") (types.StringValue "p")
          (types.StringValue "mydb") (types.StringValue "alice").

(** A record as the driver plans it: the computed fields are unknown. *)
Definition plannedRecord : Model :=
  mkModel types.StringUnknown types.StringUnknown
          (types.StringValue "i") (types.StringValue "p")
          (types.StringValue "mydb") (types.StringValue "alice").

Definition db1 : InstanceDatabase.t :=
  InstanceDatabase.mk (Some "db-1") (Some "mydb")
    (Some {[ "owner" := anyString "alice" ]}).

Definition db1Twin : InstanceDatabase.t :=
  InstanceDatabase.mk (Some "db-1") (Some "twin") None.

Definition dbNoId : InstanceDatabase.t :=
  InstanceDatabase.mk None (Some "ghost") None.

Definition dbNoOptions : InstanceDatabase.t :=
  InstanceDatabase.mk (Some "db-1") (Some "renamed") None.

(** The owner is the number 5, as a float64. *)
Definition dbNumericOwner : InstanceDatabase.t :=
  InstanceDatabase.mk (Some "db-1") (Some "renamed")
    (Some {[ "owner" := anyFloat64 4617315517961601024 ]}).

(** A client whose list call answers with the given list. *)
Definition listing (databases : list InstanceDatabase.t) : APIClient :=
  mkAPIClient
    (fun _ _ _ => (Some (InstanceCreateDatabaseResponse.mk (Some "db-1")), None))
    (fun _ _ => (Some (InstanceListDatabasesResponse.mk (Some databases)), None))
    (fun _ _ _ => None).

(** A remote object under another id than the stored one. *)
Definition dbOther : InstanceDatabase.t :=
  InstanceDatabase.mk (Some "db-2") (Some "other") None.

(** A client by the answers of its three calls. *)
Definition answering
    (created : option InstanceCreateDatabaseResponse.t * option error)
    (listed : option InstanceListDatabasesResponse.t * option error)
    (deleted : option error) : APIClient :=
  mkAPIClient (fun _ _ _ => created) (fun _ _ => listed) (fun _ _ _ => deleted).

(** The record [mapFields] makes of [plannedRecord] and [db1]. *)
Definition mappedRecord : Model :=
  set_Id (types.StringValue "p,i,db-1") storedRecord.

(** A client constructor that fails, over a round tripper without
    content. *)
Definition failingNewAPIClient (options : list (ConfigurationOption unit))
  : option APIClient * option error :=
  (None, Some (otherError "no credentials")).

(* ===================================================================== *)
(** * Properties *)
(* ===================================================================== *)

(** ** Strings: splitting on a one-byte separator *)

Lemma append_cons (a : ascii) (s t : string) :
  String a s +:+ t = String a (s +:+ t).
Proof. reflexivity. Qed.

Lemma append_nil_l (s : string) : "" +:+ s = s.
Proof. reflexivity. Qed.

Lemma append_nil_r (s : string) : s +:+ "" = s.
Proof.
  induction s as [|a s IH]; [done |]. by rewrite append_cons, IH.
Qed.

Lemma append_assoc (s t u : string) : (s +:+ t) +:+ u = s +:+ (t +:+ u).
Proof.
  induction s as [|a s IH]; [done |]. by rewrite !append_cons, IH.
Qed.

Lemma append_snoc (s t : string) (a : ascii) :
  (s +:+ String a "") +:+ t = s +:+ String a t.
Proof. by rewrite append_assoc, append_cons, append_nil_l. Qed.

Lemma concat_cons_cons (sep x y : string) (l : list string) :
  String.concat sep (x :: y :: l) = x +:+ sep +:+ String.concat sep (y :: l).
Proof. reflexivity. Qed.

Section one_byte_separator.

Variable c : ascii.
Abbreviation sep := (String c EmptyString).

Lemma prefix_byte (a : ascii) (s : string) :
  String.prefix sep (String a s) = Ascii.eqb c a.
Proof.
  simpl. destruct (ascii_dec c a) as [->|Hne].
  - rewrite Ascii.eqb_refl. by destruct s.
  - symmetry. by apply Ascii.eqb_neq.
Qed.

Lemma Contains_byte_cons (a : ascii) (s : string) :
  strings.Contains (String a s) sep
  = Ascii.eqb c a || strings.Contains s sep.
Proof. cbn [strings.Contains]. by rewrite prefix_byte. Qed.

Lemma Contains_byte_app (s t : string) :
  strings.Contains (s +:+ t) sep
  = strings.Contains s sep || strings.Contains t sep.
Proof.
  induction s as [|a s IH].
  - by rewrite append_nil_l.
  - rewrite append_cons, !Contains_byte_cons, IH. by rewrite orb_assoc.
Qed.

Lemma genSplit_byte_cons (cur : string) (a : ascii) (s : string) :
  strings.genSplit sep 0 cur (String a s)
  = if Ascii.eqb c a
    then cur :: strings.genSplit sep 0 "" s
    else strings.genSplit sep 0 (cur +:+ String a "") s.
Proof. cbn [strings.genSplit]. by rewrite prefix_byte. Qed.

Lemma genSplit_not_nil (s cur : string) : strings.genSplit sep 0 cur s <> [].
Proof.
  revert cur. induction s as [|a s IH]; intros cur; [done |].
  rewrite genSplit_byte_cons. destruct (Ascii.eqb c a); [done | apply IH].
Qed.

(** A piece without the separator is not cut. *)
Lemma genSplit_free (s cur : string) :
  strings.Contains s sep = false ->
  strings.genSplit sep 0 cur s = [cur +:+ s].
Proof.
  revert cur. induction s as [|a s IH]; intros cur H.
  - simpl. by rewrite append_nil_r.
  - rewrite Contains_byte_cons in H. apply orb_false_elim in H as [Ha Hs].
    rewrite genSplit_byte_cons, Ha, IH by done. by rewrite append_snoc.
Qed.

(** The first separator behind a piece without one ends that piece. *)
Lemma genSplit_app (s t cur : string) :
  strings.Contains s sep = false ->
  strings.genSplit sep 0 cur (s +:+ String c t)
  = (cur +:+ s) :: strings.genSplit sep 0 "" t.
Proof.
  revert cur. induction s as [|a s IH]; intros cur H.
  - rewrite append_nil_l, genSplit_byte_cons, Ascii.eqb_refl.
    by rewrite append_nil_r.
  - rewrite Contains_byte_cons in H. apply orb_false_elim in H as [Ha Hs].
    rewrite append_cons, genSplit_byte_cons, Ha, IH by done.
    by rewrite append_snoc.
Qed.

(** Joining the pieces gives the string back. *)
Lemma concat_genSplit (s cur : string) :
  String.concat sep (strings.genSplit sep 0 cur s) = cur +:+ s.
Proof.
  revert cur. induction s as [|a s IH]; intros cur.
  - simpl. by rewrite append_nil_r.
  - rewrite genSplit_byte_cons. destruct (Ascii.eqb_spec c a) as [<-|Hne].
    + pose proof (genSplit_not_nil s "") as Hnil. specialize (IH "").
      destruct (strings.genSplit sep 0 "" s) as [|x xs]; [done |].
      rewrite concat_cons_cons, IH, append_nil_l.
      by rewrite append_cons, append_nil_l.
    + rewrite IH. by rewrite append_snoc.
Qed.

(** No piece contains the separator. *)
Lemma genSplit_parts_free (s cur : string) :
  strings.Contains cur sep = false ->
  Forall (fun p => strings.Contains p sep = false)
         (strings.genSplit sep 0 cur s).
Proof.
  revert cur. induction s as [|a s IH]; intros cur H.
  - by constructor.
  - rewrite genSplit_byte_cons. destruct (Ascii.eqb c a) eqn:Ha.
    + constructor; [done | by apply IH].
    + apply IH. rewrite Contains_byte_app, H, Contains_byte_cons, Ha.
      reflexivity.
Qed.

End one_byte_separator.

(** [Split] undoes [Join] on three parts without the separator. *)
Lemma Split_Join_3 (p i d : string) :
  strings.Contains p core.Separator = false ->
  strings.Contains i core.Separator = false ->
  strings.Contains d core.Separator = false ->
  strings.Split (strings.Join [p; i; d] core.Separator) core.Separator
  = [p; i; d].
Proof.
  intros Hp Hi Hd. unfold strings.Split, strings.Join, core.Separator.
  rewrite !concat_cons_cons. cbn [String.concat].
  rewrite !append_cons, !append_nil_l.
  rewrite genSplit_app by done. rewrite genSplit_app by done.
  rewrite genSplit_free by done. reflexivity.
Qed.

(** Whatever [Split] returns is made of parts without the separator, and
    [Join] gives the string back. *)
Lemma Join_Split (raw : string) :
  strings.Join (strings.Split raw core.Separator) core.Separator = raw
  /\ Forall (fun p => strings.Contains p core.Separator = false)
            (strings.Split raw core.Separator).
Proof.
  unfold strings.Split, strings.Join, core.Separator. split.
  - apply concat_genSplit.
  - by apply genSplit_parts_free.
Qed.

(** ** The read-mapping *)

Lemma nonEmpty_true (s : string) : nonEmpty s = true <-> s <> "".
Proof.
  unfold nonEmpty. rewrite negb_true_iff. apply String.eqb_neq.
Qed.

Lemma resolvedDatabaseId_nonEmpty (respId : string) (m : Model) :
  respId <> "" -> nonEmpty (resolvedDatabaseId respId m) = true.
Proof.
  intros H. unfold resolvedDatabaseId.
  destruct (nonEmpty (types.ValueString (DatabaseId m))) eqn:E; [done |].
  by apply nonEmpty_true.
Qed.

(** Past its three guards, [mapFields] writes [Id], [DatabaseId] and
    [Name] and then looks at the owner option. *)
Lemma mapFields_guarded (resp : InstanceDatabase.t) (respId : string)
    (m : Model) :
  InstanceDatabase.Id resp = Some respId -> respId <> "" ->
  mapFields (Some resp) (Some m)
  = match InstanceDatabase.Options resp ≫= (fun options => options !! "owner") with
    | None => (None, Some (mapped resp respId m))
    | Some owner =>
        match asString owner with
        | None => (Some (Errorf "owner is not a string"),
                   Some (mapped resp respId m))
        | Some ownerStr =>
            (None, Some (set_Owner (types.StringValue ownerStr)
                           (mapped resp respId m)))
        end
    end.
Proof.
  intros HId Hne. unfold mapFields, mapped, resolvedDatabaseId. rewrite HId.
  apply String.eqb_neq in Hne. rewrite Hne.
  destruct (nonEmpty (types.ValueString (DatabaseId m)));
    (destruct (InstanceDatabase.Options resp) as [options|]; [|done]);
    cbn; (destruct (options !! "owner") as [owner|]; [|done]);
    by destruct (asString owner).
Qed.

(** When [mapFields] returns no error, its guards held. *)
Lemma mapFields_ok_guards (databaseResp : option InstanceDatabase.t)
    (model : option Model) (m' : option Model) :
  mapFields databaseResp model = (None, m') ->
  exists resp respId m,
    databaseResp = Some resp /\ model = Some m
    /\ InstanceDatabase.Id resp = Some respId /\ respId <> "".
Proof.
  unfold mapFields. intros H.
  destruct databaseResp as [resp|]; [|done].
  destruct (InstanceDatabase.Id resp) as [respId|] eqn:HId; [|done].
  destruct (String.eqb_spec respId "") as [|Hne]; [done |].
  destruct model as [m|]; [|done].
  by exists resp, respId, m.
Qed.

(** With a record at hand [mapFields] leaves a record. *)
Lemma mapFields_Some (databaseResp : option InstanceDatabase.t) (m : Model) :
  exists m', (mapFields databaseResp (Some m)).2 = Some m'.
Proof.
  unfold mapFields. repeat case_match; eauto.
Qed.

Lemma mapped_idempotent (resp : InstanceDatabase.t) (respId : string)
    (m : Model) :
  respId <> "" -> mapped resp respId (mapped resp respId m) = mapped resp respId m.
Proof.
  intros Hne. unfold mapped at 1 3. cbn [ProjectId InstanceId Owner].
  assert (resolvedDatabaseId respId (mapped resp respId m)
          = resolvedDatabaseId respId m) as ->; [|done].
  unfold resolvedDatabaseId at 1. cbn [mapped DatabaseId types.ValueString].
  by rewrite resolvedDatabaseId_nonEmpty.
Qed.

Lemma mapped_set_Owner (resp : InstanceDatabase.t) (respId : string)
    (m : Model) (v : types.String_) :
  mapped resp respId (set_Owner v m) = set_Owner v (mapped resp respId m).
Proof. reflexivity. Qed.

Lemma set_Owner_twice (v : types.String_) (m : Model) :
  set_Owner v (set_Owner v m) = set_Owner v m.
Proof. reflexivity. Qed.

(** ** Lookup-by-scan *)

Lemma matches_true (databaseId : string) (database : InstanceDatabase.t) :
  matches databaseId database = true
  <-> InstanceDatabase.Id database = Some databaseId.
Proof.
  unfold matches. destruct (InstanceDatabase.Id database) as [id|].
  - rewrite String.eqb_eq. split; congruence.
  - split; discriminate.
Qed.

(** One turn of the loop: the guarded dereference never panics and the log
    is left alone. *)
Lemma getDatabase_range_cons (database : InstanceDatabase.t)
    (rest : list InstanceDatabase.t) (databaseId : string) (log : list ApiCall) :
  getDatabase_range (database :: rest) databaseId log
  = if matches databaseId database
    then (Returned (Some database, None), log)
    else getDatabase_range rest databaseId log.
Proof.
  cbn [getDatabase_range]. unfold matches, mbind, Api_bind, andThen, notNil.
  destruct (InstanceDatabase.Id database) as [id|]; cbn; [|done].
  by destruct (String.eqb id databaseId).
Qed.

(** The loop is a [find] over the list in the order of the server. *)
Lemma getDatabase_range_find (databases : list InstanceDatabase.t)
    (databaseId : string) (log : list ApiCall) :
  getDatabase_range databases databaseId log
  = (Returned match List.find (matches databaseId) databases with
              | Some database => (Some database, None)
              | None => (None, Some (Errorf "database not found"))
              end,
     log).
Proof.
  induction databases as [|database rest IH]; [done |].
  rewrite getDatabase_range_cons. cbn [List.find].
  by destruct (matches databaseId database).
Qed.

(** What [find] finds: the first element that passes the test. *)
Lemma find_first {A} (f : A -> bool) (l : list A) :
  match List.find f l with
  | Some x => exists l1 l2, l = (l1 ++ x :: l2)%list /\ f x = true
                            /\ Forall (fun y => f y = false) l1
  | None => Forall (fun y => f y = false) l
  end.
Proof.
  induction l as [|a l IH]; cbn [List.find]; [by constructor |].
  destruct (f a) eqn:Ha.
  - exists [], l. by repeat split.
  - destruct (List.find f l) as [x|].
    + destruct IH as (l1 & l2 & -> & Hx & Hl1).
      exists (a :: l1), l2. repeat split; [done |]. by constructor.
    + by constructor.
Qed.

(** [getDatabase] when the list call answers with a list. *)
Lemma getDatabase_listed (client : APIClient)
    (projectId instanceId databaseId : string)
    (databases : list InstanceDatabase.t) (log : list ApiCall) :
  ListDatabases client projectId instanceId
  = (Some (InstanceListDatabasesResponse.mk (Some databases)), None) ->
  getDatabase client projectId instanceId databaseId log
  = getDatabase_range databases databaseId
      (log ++ [CallListDatabases projectId instanceId])%list.
Proof.
  intros H. unfold getDatabase, mbind, Api_bind, ListDatabasesExecute.
  by rewrite H.
Qed.

(** [getDatabase] never panics and makes exactly the list call. *)
Lemma getDatabase_total (client : APIClient)
    (projectId instanceId databaseId : string) (log : list ApiCall) :
  exists out,
    getDatabase client projectId instanceId databaseId log
    = (Returned out, (log ++ [CallListDatabases projectId instanceId])%list).
Proof.
  unfold getDatabase, mbind, Api_bind, ListDatabasesExecute.
  destruct (ListDatabases client projectId instanceId) as [resp [e|]];
    [by eexists |].
  destruct resp as [[[databases|]]|]; cbn; [|by eexists..].
  rewrite getDatabase_range_find. by eexists.
Qed.

(** C6: over the list the list call returned, [getDatabase] returns the
    first element, in the order of the server, whose [Id] is the target,
    so the first one wins among duplicates; when the list is empty or has
    no such element it returns the error [database not found].  It returns
    in every case (no panic) after the one list call. *)
Theorem getDatabase_first_match (client : APIClient)
    (projectId instanceId databaseId : string)
    (databases : list InstanceDatabase.t) (log : list ApiCall) :
  ListDatabases client projectId instanceId
  = (Some (InstanceListDatabasesResponse.mk (Some databases)), None) ->
  exists out,
    getDatabase client projectId instanceId databaseId log
    = (Returned out, (log ++ [CallListDatabases projectId instanceId])%list)
    /\ ((exists before database after,
           databases = (before ++ database :: after)%list
           /\ InstanceDatabase.Id database = Some databaseId
           /\ Forall (fun d => InstanceDatabase.Id d <> Some databaseId) before
           /\ out = (Some database, None))
        \/ (Forall (fun d => InstanceDatabase.Id d <> Some databaseId) databases
            /\ out = (None, Some (Errorf "database not found")))).
Proof.
  intros H. rewrite (getDatabase_listed _ _ _ _ _ _ H), getDatabase_range_find.
  eexists. split; [reflexivity |].
  pose proof (find_first (matches databaseId) databases) as Hfind.
  destruct (List.find (matches databaseId) databases) as [database|].
  - left. destruct Hfind as (before & after & -> & Hm & Hb).
    exists before, database, after. repeat split; [by apply matches_true |].
    eapply Forall_impl; [exact Hb |]. intros d Hd Heq.
    apply matches_true in Heq. congruence.
  - right. split; [|done].
    eapply Forall_impl; [exact Hfind |]. intros d Hd Heq.
    apply matches_true in Heq. congruence.
Qed.

(** The loop on lists with elements without an [Id]: it returns and leaves
    the log alone, a match has the target as its [Id], the result is that
    of the scan of the list without those elements, and a match right
    behind such elements is found. *)
Lemma getDatabase_range_null_ids
    (databases : list InstanceDatabase.t) (databaseId : string)
    (log : list ApiCall) :
  (exists out,
     getDatabase_range databases databaseId log = (Returned out, log)
     /\ match out.1 with
        | Some database => InstanceDatabase.Id database = Some databaseId
        | None => True
        end)
  /\ getDatabase_range databases databaseId log
     = getDatabase_range
         (List.filter (fun d => notNil (InstanceDatabase.Id d)) databases)
         databaseId log
  /\ forall nulls name options,
       getDatabase_range
         (map nullId nulls
            ++ InstanceDatabase.mk (Some databaseId) name options :: databases)%list
         databaseId log
       = (Returned
            (Some (InstanceDatabase.mk (Some databaseId) name options), None),
          log).
Proof.
  split; [|split].
  - rewrite getDatabase_range_find. eexists. split; [reflexivity |].
    pose proof (find_first (matches databaseId) databases) as Hfind.
    destruct (List.find (matches databaseId) databases) as [x|]; [|done].
    destruct Hfind as (_ & _ & _ & Hm & _). by apply matches_true.
  - induction databases as [|database rest IH]; [done |].
    rewrite getDatabase_range_cons. cbn [List.filter]. unfold matches at 1.
    destruct (InstanceDatabase.Id database) as [id|] eqn:HId; cbn [notNil].
    + rewrite getDatabase_range_cons. unfold matches at 1. rewrite HId.
      by destruct (String.eqb id databaseId).
    + exact IH.
  - intros nulls name options.
    induction nulls as [|n nulls IH]; cbn [map app];
      rewrite getDatabase_range_cons; unfold matches; cbn.
    + by rewrite String.eqb_refl.
    + exact IH.
Qed.

(** ** Claims on the read-mapping and the payload builder *)

Lemma mapped_compositeId (resp : InstanceDatabase.t) (respId : string)
    (m : Model) (v : types.String_) :
  Id (mapped resp respId m) = types.StringValue (compositeId (mapped resp respId m))
  /\ Id (set_Owner v (mapped resp respId m))
     = types.StringValue (compositeId (set_Owner v (mapped resp respId m))).
Proof. split; reflexivity. Qed.

Lemma mapFields_ok_compositeId (databaseResp : option InstanceDatabase.t)
    (model : option Model) (m' : Model) :
  mapFields databaseResp model = (None, Some m') ->
  Id m' = types.StringValue (compositeId m').
Proof.
  intros H.
  destruct (mapFields_ok_guards _ _ _ H) as (resp & respId & m & -> & -> & HId & Hne).
  rewrite (mapFields_guarded _ _ _ HId Hne) in H.
  destruct (InstanceDatabase.Options resp ≫= _) as [owner|].
  - destruct (asString owner) as [ownerStr|]; [|done].
    injection H as <-. apply (mapped_compositeId resp respId m).
  - injection H as <-. apply (mapped_compositeId resp respId m types.StringNull).
Qed.

(** C5: the read-mapping is idempotent: when it succeeds on a remote
    object and a record, applying it again with the same remote object to
    the record it produced succeeds and gives that record again. *)
Theorem mapFields_idempotent (databaseResp : option InstanceDatabase.t)
    (model : option Model) (m' : Model) :
  mapFields databaseResp model = (None, Some m') ->
  mapFields databaseResp (Some m') = (None, Some m').
Proof.
  intros H.
  destruct (mapFields_ok_guards _ _ _ H) as (resp & respId & m & -> & -> & HId & Hne).
  rewrite (mapFields_guarded _ _ _ HId Hne) in H.
  rewrite (mapFields_guarded _ _ _ HId Hne).
  destruct (InstanceDatabase.Options resp ≫= _) as [owner|].
  - destruct (asString owner) as [ownerStr|]; [|done].
    injection H as <-.
    by rewrite mapped_set_Owner, mapped_idempotent, set_Owner_twice.
  - injection H as <-. by rewrite mapped_idempotent.
Qed.

(** C7: when the read-mapping succeeds and the remote object has no
    [Options] or its [Options] have no [owner] key, the record keeps the
    [Owner] it had, while [Id] is the recomputed composite id, [DatabaseId]
    the resolved database id and [Name] the remote name. *)
Theorem mapFields_keeps_owner_without_option (resp : InstanceDatabase.t)
    (m m' : Model) :
  mapFields (Some resp) (Some m) = (None, Some m') ->
  (InstanceDatabase.Options resp = None
   \/ exists options, InstanceDatabase.Options resp = Some options
                      /\ options !! "owner" = None) ->
  Owner m' = Owner m
  /\ (exists respId,
        InstanceDatabase.Id resp = Some respId
        /\ DatabaseId m'
           = types.StringValue
               (if nonEmpty (types.ValueString (DatabaseId m))
                then types.ValueString (DatabaseId m) else respId))
  /\ Id m'
     = types.StringValue
         (strings.Join [ types.ValueString (ProjectId m);
                         types.ValueString (InstanceId m);
                         types.ValueString (DatabaseId m') ] core.Separator)
  /\ Name m' = types.StringPointerValue (InstanceDatabase.Name resp).
Proof.
  intros H Hopt.
  destruct (mapFields_ok_guards _ _ _ H)
    as (resp0 & respId & m0 & [= <-] & [= <-] & HId & Hne).
  rewrite (mapFields_guarded _ _ _ HId Hne) in H.
  assert (InstanceDatabase.Options resp ≫= (fun options => options !! "owner")
          = None) as Hnone.
  { destruct Hopt as [-> | (options & -> & Hlook)]; [done | exact Hlook]. }
  rewrite Hnone in H. injection H as <-.
  split; [done |]. split; [by exists respId |]. by split.
Qed.


(** ** Diagnostics *)

Lemma Diagnostic_Equal_eq (a b : diag.Diagnostic) :
  diag.Diagnostic_Equal a b = true -> a = b.
Proof.
  unfold diag.Diagnostic_Equal. destruct a as [sa ma da], b as [sb mb db]. cbn.
  intros H. apply andb_true_iff in H as [H Hd]. apply andb_true_iff in H as [Hs Hm].
  apply String.eqb_eq in Hd, Hm. subst. by destruct sa, sb.
Qed.

Lemma In_Append (diags : diag.Diagnostics) (d : diag.Diagnostic) :
  In d (diag.Append diags d).
Proof.
  unfold diag.Append. destruct (diag.Contains diags d) eqn:HC.
  - apply existsb_exists in HC as (x & Hx & Heq).
    apply Diagnostic_Equal_eq in Heq. by subst.
  - apply in_or_app. right. by left.
Qed.

Lemma HasError_In (diags : diag.Diagnostics) (d : diag.Diagnostic) :
  In d diags -> diag.severity d = diag.SeverityError ->
  diag.HasError diags = true.
Proof.
  intros HIn Hsev. apply existsb_exists. exists d. split; [done |].
  by rewrite Hsev.
Qed.

Lemma HasError_AddError (diags : diag.Diagnostics) (s d : string) :
  diag.HasError (diag.AddError diags s d) = true.
Proof.
  apply (HasError_In _ (diag.mkDiagnostic diag.SeverityError s d));
    [apply In_Append | done].
Qed.

Lemma HasError_AddWarning (diags : diag.Diagnostics) (s d : string) :
  diag.HasError (diag.AddWarning diags s d) = diag.HasError diags.
Proof.
  unfold diag.AddWarning, diag.Append.
  destruct (diag.Contains diags _); [done |].
  unfold diag.HasError. rewrite existsb_app. cbn. by rewrite !orb_false_r.
Qed.

Lemma addError_HasError (resp : Response) (s d : string) :
  diag.HasError (Diagnostics (addError resp s d)) = true.
Proof. apply HasError_AddError. Qed.

(** ** The handlers *)

(** What [Read] stores without reporting an error is a record the
    read-mapping produced from the stored one. *)
Lemma Read_stored (r : databaseResource) (req : ReadRequest.t)
    (resp resp' : Response) (log log' : list ApiCall) (m : Model) :
  Read r req resp log = (Returned resp', log') ->
  diag.HasError (Diagnostics resp') = false ->
  State resp' = Some m ->
  exists databaseResp,
    mapFields databaseResp (Some (ReadRequest.State req)) = (None, Some m).
Proof.
  unfold Read. destruct (diag.HasError (Diagnostics resp)) eqn:HE.
  { intros [= <- <-]. congruence. }
  unfold mbind, Api_bind.
  destruct (getDatabase_total (client r)
              (types.ValueString (ProjectId (ReadRequest.State req)))
              (types.ValueString (InstanceId (ReadRequest.State req)))
              (types.ValueString (DatabaseId (ReadRequest.State req))) log)
    as [[databaseResp err] ->].
  destruct err as [e|].
  - destruct (match asGenericOpenAPIError e with
              | Some StatusCode => Z.eqb StatusCode StatusNotFound
              | None => false
              end).
    + intros [= <- <-] _ HS. discriminate HS.
    + intros [= <- <-] HErr. by rewrite addError_HasError in HErr.
  - destruct (mapFields databaseResp (Some (ReadRequest.State req)))
      as [err model'] eqn:Hmap.
    destruct (mapFields_Some databaseResp (ReadRequest.State req)) as [m' Hm'].
    rewrite Hmap in Hm'. cbn in Hm'. subst model'.
    destruct err as [e|].
    + intros [= <- <-] HErr. by rewrite addError_HasError in HErr.
    + intros [= <- <-] _ [= <-]. by exists databaseResp.
Qed.

(** The same for [Create] and the planned record. *)
Lemma Create_stored (r : databaseResource) (req : CreateRequest.t)
    (resp resp' : Response) (log log' : list ApiCall) (m : Model) :
  Create r req resp log = (Returned resp', log') ->
  diag.HasError (Diagnostics resp') = false ->
  State resp' = Some m ->
  exists databaseResp,
    mapFields databaseResp (Some (CreateRequest.Plan req)) = (None, Some m).
Proof.
  unfold Create. destruct (diag.HasError (Diagnostics resp)) eqn:HE.
  { intros [= <- <-]. congruence. }
  cbn [toCreatePayload].
  unfold mbind, Api_bind, deref, CreateDatabaseExecute, ret, mret, Api_ret.
  destruct (CreateDatabase _ _ _ _) as [databaseResp [e|]].
  { intros [= <- <-] HErr. by rewrite addError_HasError in HErr. }
  destruct (returnedId databaseResp) as [databaseId|];
    [|intros [= <- <-] HErr; by rewrite addError_HasError in HErr].
  match goal with |- context [getDatabase ?c ?p ?i ?d ?l] =>
    destruct (getDatabase_total c p i d l) as [[database err] ->] end.
  destruct err as [e|].
  { intros [= <- <-] HErr. by rewrite addError_HasError in HErr. }
  destruct (mapFields database (Some (CreateRequest.Plan req)))
    as [err model'] eqn:Hmap.
  destruct (mapFields_Some database (CreateRequest.Plan req)) as [m' Hm'].
  rewrite Hmap in Hm'. cbn in Hm'. subst model'.
  destruct err as [e|].
  - intros [= <- <-] HErr. by rewrite addError_HasError in HErr.
  - intros [= <- <-] _ [= <-]. by exists database.
Qed.

(** C3: whenever the read-mapping succeeds, the [Id] of the record it
    leaves is the record's [ProjectId], [InstanceId] and [DatabaseId]
    joined with the separator, in that order; hence so is the [Id] of the
    record a [Read] or a [Create] stores without reporting an error. *)
Theorem composite_id_after_mapping :
  (forall databaseResp model m',
     mapFields databaseResp model = (None, Some m') ->
     Id m' = types.StringValue
               (strings.Join [ types.ValueString (ProjectId m');
                               types.ValueString (InstanceId m');
                               types.ValueString (DatabaseId m') ]
                  core.Separator))
  /\ (forall r req resp log resp' log' m,
        Read r req resp log = (Returned resp', log') ->
        diag.HasError (Diagnostics resp') = false ->
        State resp' = Some m ->
        Id m = types.StringValue
                 (strings.Join [ types.ValueString (ProjectId m);
                                 types.ValueString (InstanceId m);
                                 types.ValueString (DatabaseId m) ]
                    core.Separator))
  /\ (forall r req resp log resp' log' m,
        Create r req resp log = (Returned resp', log') ->
        diag.HasError (Diagnostics resp') = false ->
        State resp' = Some m ->
        Id m = types.StringValue
                 (strings.Join [ types.ValueString (ProjectId m);
                                 types.ValueString (InstanceId m);
                                 types.ValueString (DatabaseId m) ]
                    core.Separator)).
Proof.
  split; [|split].
  - apply mapFields_ok_compositeId.
  - intros r req resp log resp' log' m HR HE HS.
    destruct (Read_stored _ _ _ _ _ _ _ HR HE HS) as [databaseResp Hmap].
    by apply mapFields_ok_compositeId in Hmap.
  - intros r req resp log resp' log' m HC HE HS.
    destruct (Create_stored _ _ _ _ _ _ _ HC HE HS) as [databaseResp Hmap].
    by apply mapFields_ok_compositeId in Hmap.
Qed.

(** [Read] when the lookup fails: only a generic OpenAPI error with
    status 404 removes the resource. *)
Lemma Read_lookup_failed (r : databaseResource) (req : ReadRequest.t)
    (resp : Response) (log log1 : list ApiCall)
    (databaseResp : option InstanceDatabase.t) (e : error) :
  diag.HasError (Diagnostics resp) = false ->
  getDatabase (client r)
    (types.ValueString (ProjectId (ReadRequest.State req)))
    (types.ValueString (InstanceId (ReadRequest.State req)))
    (types.ValueString (DatabaseId (ReadRequest.State req))) log
  = (Returned (databaseResp, Some e), log1) ->
  Read r req resp log
  = (Returned
       (if match asGenericOpenAPIError e with
           | Some StatusCode => Z.eqb StatusCode StatusNotFound
           | None => false
           end
        then onState tfsdk.RemoveResource resp
        else addError resp "Error reading database"
               ("Calling API: " +:+ Error e)),
     log1).
Proof.
  intros HE Hget. unfold Read, mbind, Api_bind. rewrite HE, Hget.
  by destruct (match asGenericOpenAPIError e with
               | Some StatusCode => Z.eqb StatusCode StatusNotFound
               | None => false
               end).
Qed.

(** [Read] when the lookup succeeds and the read-mapping fails: the error
    is reported and nothing is stored. *)
Lemma Read_mapping_failed (r : databaseResource) (req : ReadRequest.t)
    (resp : Response) (log log1 : list ApiCall)
    (databaseResp : option InstanceDatabase.t) (e : error)
    (model' : option Model) :
  diag.HasError (Diagnostics resp) = false ->
  getDatabase (client r)
    (types.ValueString (ProjectId (ReadRequest.State req)))
    (types.ValueString (InstanceId (ReadRequest.State req)))
    (types.ValueString (DatabaseId (ReadRequest.State req))) log
  = (Returned (databaseResp, None), log1) ->
  mapFields databaseResp (Some (ReadRequest.State req)) = (Some e, model') ->
  Read r req resp log
  = (Returned (addError resp "Error reading database"
                 ("Processing API payload: " +:+ Error e)),
     log1).
Proof.
  intros HE Hget Hmap. unfold Read, mbind, Api_bind.
  by rewrite HE, Hget, Hmap.
Qed.

(** The stored [DatabaseId] is missing from the list of the remote
    service: the scan fails with a plain error, which is no generic
    OpenAPI error, so [Read] reports it and keeps the state. *)
Lemma Read_missing_from_list (r : databaseResource) (req : ReadRequest.t)
    (resp : Response) (log : list ApiCall)
    (databases : list InstanceDatabase.t) :
  diag.HasError (Diagnostics resp) = false ->
  ListDatabases (client r)
    (types.ValueString (ProjectId (ReadRequest.State req)))
    (types.ValueString (InstanceId (ReadRequest.State req)))
  = (Some (InstanceListDatabasesResponse.mk (Some databases)), None) ->
  Forall (fun d => InstanceDatabase.Id d
                   <> Some (types.ValueString (DatabaseId (ReadRequest.State req))))
         databases ->
  Read r req resp log
  = (Returned (addError resp "Error reading database"
                 "Calling API: database not found"),
     (log ++ [CallListDatabases
                (types.ValueString (ProjectId (ReadRequest.State req)))
                (types.ValueString (InstanceId (ReadRequest.State req)))])%list).
Proof.
  intros HE Hlist Hnone.
  erewrite (Read_lookup_failed r req resp log _ None
              (Errorf "database not found") HE); [done |].
  rewrite (getDatabase_listed _ _ _ _ _ _ Hlist), getDatabase_range_find.
  pose proof (find_first
                (matches (types.ValueString (DatabaseId (ReadRequest.State req))))
                databases) as Hfind.
  destruct (List.find _ databases) as [x|]; [|done].
  destruct Hfind as (l1 & l2 & -> & Hm & _). apply matches_true in Hm.
  apply Forall_app in Hnone as [_ Hx]. by inversion Hx.
Qed.

(** C9: whatever the request, the response and the calls made so far,
    [Update] returns after no remote call with the state as it was and
    with the one error diagnostic [Error updating database] /
    [Database can't be updated] in the diagnostics. *)
Theorem Update_always_fails (r : databaseResource) (req : UpdateRequest.t)
    (resp : Response) (log : list ApiCall) :
  exists resp',
    Update r req resp log = (Returned resp', log)
    /\ State resp' = State resp
    /\ Diagnostics resp'
       = core.LogAndAddError (Diagnostics resp)
           "Error updating database" "Database can't be updated"
    /\ In (diag.mkDiagnostic diag.SeverityError
             "Error updating database" "Database can't be updated")
          (Diagnostics resp')
    /\ diag.HasError (Diagnostics resp') = true.
Proof.
  eexists. split; [reflexivity |]. split; [done |]. split; [done |].
  split; [apply In_Append | apply HasError_AddError].
Qed.

(** [ImportState] by the shape of the split identifier. *)
Lemma ImportState_cases (Quote : string -> string) (r : databaseResource)
    (raw : string) (resp : Response) (log : list ApiCall) :
  ImportState Quote r (ImportStateRequest.mk raw) resp log
  = (Returned
       match strings.Split raw core.Separator with
       | [p; i; d] =>
           if nonEmpty p && nonEmpty i && nonEmpty d
           then addWarning
                  (mkResponse
                     (Some (set_DatabaseId (types.StringValue d)
                              (set_InstanceId (types.StringValue i)
                                 (set_ProjectId (types.StringValue p)
                                    (default tfsdk.nullModel (State resp))))))
                     (Diagnostics resp))
                  "Postgresflex database imported with empty password"
                  "The database password is not imported as it is only available upon creation of a new database. The password field will be empty."
           else mkResponse (State resp)
                  (diag.AddError (Diagnostics resp) "Error importing database"
                     (diag.detail (importError Quote raw)))
       | _ => mkResponse (State resp)
                (diag.AddError (Diagnostics resp) "Error importing database"
                   (diag.detail (importError Quote raw)))
       end,
     log).
Proof.
  unfold ImportState. cbn [ImportStateRequest.ID].
  destruct (strings.Split raw core.Separator) as [|p [|i [|d [|x l]]]]; try done.
  unfold nonEmpty.
  by destruct (String.eqb p ""), (String.eqb i ""), (String.eqb d "").
Qed.

(** C4: for strings [p], [i], [d] that are not empty and do not contain
    the separator, [ImportState] on their join returns without a new error
    and leaves a state whose [ProjectId], [InstanceId] and [DatabaseId] are
    [p], [i] and [d]; on every identifier that is not such a join, it
    returns with the error [Error importing database] and the state as it
    was. *)
Theorem ImportState_round_trip (Quote : string -> string)
    (r : databaseResource) (resp : Response) (log : list ApiCall) :
  (forall p i d,
     p <> "" -> i <> "" -> d <> "" ->
     strings.Contains p core.Separator = false ->
     strings.Contains i core.Separator = false ->
     strings.Contains d core.Separator = false ->
     exists resp' m,
       ImportState Quote r
         (ImportStateRequest.mk (strings.Join [p; i; d] core.Separator)) resp log
       = (Returned resp', log)
       /\ State resp' = Some m
       /\ ProjectId m = types.StringValue p
       /\ InstanceId m = types.StringValue i
       /\ DatabaseId m = types.StringValue d
       /\ diag.HasError (Diagnostics resp') = diag.HasError (Diagnostics resp))
  /\ (forall raw,
        ~ (exists p i d,
             p <> "" /\ i <> "" /\ d <> ""
             /\ strings.Contains p core.Separator = false
             /\ strings.Contains i core.Separator = false
             /\ strings.Contains d core.Separator = false
             /\ raw = strings.Join [p; i; d] core.Separator) ->
        exists resp',
          ImportState Quote r (ImportStateRequest.mk raw) resp log
          = (Returned resp', log)
          /\ State resp' = State resp
          /\ In (importError Quote raw) (Diagnostics resp')
          /\ diag.HasError (Diagnostics resp') = true).
Proof.
  split.
  - intros p i d Hp Hi Hd Fp Fi Fd.
    rewrite ImportState_cases, Split_Join_3 by done.
    apply nonEmpty_true in Hp, Hi, Hd. rewrite Hp, Hi, Hd. cbn [andb].
    eexists _, _. split; [reflexivity |]. split; [reflexivity |].
    repeat split. apply HasError_AddWarning.
  - intros raw Hnot. rewrite ImportState_cases.
    assert (forall st, exists resp',
              (Returned (mkResponse st
                 (diag.AddError (Diagnostics resp) "Error importing database"
                    (diag.detail (importError Quote raw)))), log)
              = (Returned resp', log)
              /\ State resp' = st
              /\ In (importError Quote raw) (Diagnostics resp')
              /\ diag.HasError (Diagnostics resp') = true) as Hfail.
    { intros st. eexists. split; [reflexivity |]. split; [done |].
      split; [apply In_Append | apply HasError_AddError]. }
    destruct (Join_Split raw) as [HJ HF].
    destruct (strings.Split raw core.Separator) as [|p [|i [|d [|x l]]]];
      try apply Hfail.
    destruct (nonEmpty p && nonEmpty i && nonEmpty d) eqn:Hne; [|apply Hfail].
    exfalso. apply Hnot. exists p, i, d.
    apply andb_true_iff in Hne as [Hne Hd]. apply andb_true_iff in Hne as [Hp Hi].
    apply nonEmpty_true in Hp, Hi, Hd.
    inversion HF as [|? ? Fp HF1]; subst. inversion HF1 as [|? ? Fi HF2]; subst.
    inversion HF2 as [|? ? Fd _]; subst.
    by repeat split.
Qed.

(** C2, as the code has it: for a remote object with an [Id] that is not
    empty whose [Options] bind [owner] to a value that is no string, and a
    record that is not nil, the read-mapping returns the error
    [owner is not a string]; the record it was given keeps its [Owner],
    [ProjectId] and [InstanceId], and its [Id], [DatabaseId] and [Name] are
    written by then.  [Read] hands the mapping its local copy of the stored
    record and stores nothing when the mapping fails: it reports the error
    and the state of the response is as it was. *)
Theorem mapFields_owner_mismatch (resp : InstanceDatabase.t) (respId : string)
    (options : gmap string any) (owner : any) (m : Model) :
  InstanceDatabase.Id resp = Some respId -> respId <> "" ->
  InstanceDatabase.Options resp = Some options ->
  options !! "owner" = Some owner -> asString owner = None ->
  (exists m',
     mapFields (Some resp) (Some m)
     = (Some (Errorf "owner is not a string"), Some m')
     /\ Owner m' = Owner m
     /\ ProjectId m' = ProjectId m
     /\ InstanceId m' = InstanceId m
     /\ DatabaseId m'
        = types.StringValue
            (if nonEmpty (types.ValueString (DatabaseId m))
             then types.ValueString (DatabaseId m) else respId)
     /\ Id m'
        = types.StringValue
            (strings.Join [ types.ValueString (ProjectId m);
                            types.ValueString (InstanceId m);
                            types.ValueString (DatabaseId m') ] core.Separator)
     /\ Name m' = types.StringPointerValue (InstanceDatabase.Name resp))
  /\ (forall r req response log log1,
        ReadRequest.State req = m ->
        diag.HasError (Diagnostics response) = false ->
        getDatabase (client r)
          (types.ValueString (ProjectId m))
          (types.ValueString (InstanceId m))
          (types.ValueString (DatabaseId m)) log
        = (Returned (Some resp, None), log1) ->
        exists response',
          Read r req response log = (Returned response', log1)
          /\ State response' = State response
          /\ Diagnostics response'
             = core.LogAndAddError (Diagnostics response)
                 "Error reading database"
                 "Processing API payload: owner is not a string").
Proof.
  intros HId Hne Hopt Hown Hstr.
  assert (mapFields (Some resp) (Some m)
          = (Some (Errorf "owner is not a string"), Some (mapped resp respId m)))
    as Hmap.
  { rewrite (mapFields_guarded _ _ _ HId Hne), Hopt. cbn.
    by rewrite Hown, Hstr. }
  split.
  - exists (mapped resp respId m). by repeat split.
  - intros r req response log log1 <- HE Hget.
    eexists. split.
    + eapply Read_mapping_failed; [exact HE | exact Hget | exact Hmap].
    + by split.
Qed.

(** ** The claims at the sample data *)

(** C1, on the code: the stored [DatabaseId] is [db-1] and the list the
    remote service returns is empty.  The scan fails with the plain error
    [database not found]; that is no generic OpenAPI error, so [Read] does
    not remove the resource: it keeps the state and reports the error. *)
Theorem Read_missing_database_reports_error :
  Read (mkDatabaseResource (listing [])) (ReadRequest.mk storedRecord)
       (mkResponse (Some storedRecord) []) []
  = (Returned
       (mkResponse (Some storedRecord)
          [diag.mkDiagnostic diag.SeverityError "Error reading database"
             "Calling API: database not found"]),
     [CallListDatabases "p" "i"]).
Proof. reflexivity. Qed.

(** Only when the list call itself fails with status 404 does [Read] remove
    the resource without an error. *)
Lemma Read_status_404_removes (msg : string) (st : tfsdk.State) :
  Read (mkDatabaseResource
          (mkAPIClient (fun _ _ _ => (None, None))
             (fun _ _ => (None, Some (GenericOpenAPIError 404 msg)))
             (fun _ _ _ => None)))
       (ReadRequest.mk storedRecord) (mkResponse st []) []
  = (Returned (mkResponse None []), [CallListDatabases "p" "i"]).
Proof. reflexivity. Qed.

(** C2 fails as stated: on [dbNumericOwner] and [storedRecord] the mapping
    does not leave the record as it was, its [Id] and [Name] are written. *)
Lemma mapFields_owner_mismatch_record_changed :
  ~ (forall (resp : InstanceDatabase.t) (m : Model)
            (options : gmap string any) (owner : any),
       InstanceDatabase.Options resp = Some options ->
       options !! "owner" = Some owner -> asString owner = None ->
       mapFields (Some resp) (Some m)
       = (Some (Errorf "owner is not a string"), Some m)).
Proof.
  intros H.
  specialize (H dbNumericOwner storedRecord
                {[ "owner" := anyFloat64 4617315517961601024 ]}
                (anyFloat64 4617315517961601024) eq_refl eq_refl eq_refl).
  vm_compute in H. discriminate H.
Qed.

(** Without an [Id] the remote object does not even reach the owner
    check. *)
Example mapFields_owner_mismatch_no_id :
  mapFields (Some (InstanceDatabase.mk None None
                     (Some {[ "owner" := anyBool true ]})))
            (Some storedRecord)
  = (Some (Errorf "id not present"), Some storedRecord).
Proof. reflexivity. Qed.

Lemma mapFields_owner_mismatch_witness :
  (InstanceDatabase.Id dbNumericOwner = Some "db-1" /\ "db-1" <> "")
  /\ exists m',
       mapFields (Some dbNumericOwner) (Some plannedRecord)
       = (Some (Errorf "owner is not a string"), Some m')
       /\ Owner m' = types.StringValue "alice"
       /\ Name m' = types.StringValue "renamed"
       /\ Id m' = types.StringValue "p,i,db-1".
Proof.
  split; [split; [reflexivity | discriminate] |].
  destruct (mapFields_owner_mismatch dbNumericOwner "db-1"
              {[ "owner" := anyFloat64 4617315517961601024 ]}
              (anyFloat64 4617315517961601024) plannedRecord
              eq_refl ltac:(discriminate) eq_refl eq_refl eq_refl)
    as [(m' & Hmap & HOwner & _ & _ & HDb & HId & HName) _].
  exists m'. split; [exact Hmap |]. split; [exact HOwner |].
  split; [exact HName |]. rewrite HId, HDb. reflexivity.
Defined.

Lemma composite_id_after_mapping_witness :
  mapFields (Some db1) (Some plannedRecord)
  = (None, Some (set_Id (types.StringValue "p,i,db-1") storedRecord))
  /\ Read (mkDatabaseResource (listing [dbNoId; db1])) (ReadRequest.mk storedRecord)
          (mkResponse (Some storedRecord) []) []
     = (Returned
          (mkResponse (Some (set_Id (types.StringValue "p,i,db-1") storedRecord)) []),
        [CallListDatabases "p" "i"])
  /\ (Create (mkDatabaseResource (listing [db1])) (CreateRequest.mk plannedRecord)
         (mkResponse None []) []).1
     = Returned
         (mkResponse (Some (set_Id (types.StringValue "p,i,db-1") storedRecord)) [])
  /\ Id (set_Id (types.StringValue "p,i,db-1") storedRecord)
     = types.StringValue (strings.Join ["p"; "i"; "db-1"] core.Separator).
Proof.
  split; [reflexivity |]. split; [reflexivity |]. split; [reflexivity |].
  pose proof composite_id_after_mapping as (HmapFields & HRead & HCreate).
  pose proof (HmapFields (Some db1) (Some plannedRecord) _ eq_refl) as H1.
  pose proof (HRead (mkDatabaseResource (listing [dbNoId; db1]))
                (ReadRequest.mk storedRecord) (mkResponse (Some storedRecord) []) []
                _ _ _ eq_refl eq_refl eq_refl) as H2.
  pose proof (HCreate (mkDatabaseResource (listing [db1]))
                (CreateRequest.mk plannedRecord) (mkResponse None []) []
                _ _ _ eq_refl eq_refl eq_refl) as H3.
  exact H2.
Defined.

Lemma mapFields_idempotent_witness :
  mapFields (Some db1) (Some plannedRecord)
  = (None, Some (set_Id (types.StringValue "p,i,db-1") storedRecord))
  /\ mapFields (Some db1) (Some (set_Id (types.StringValue "p,i,db-1") storedRecord))
     = (None, Some (set_Id (types.StringValue "p,i,db-1") storedRecord)).
Proof.
  split; [reflexivity |].
  exact (mapFields_idempotent (Some db1) (Some plannedRecord) _ eq_refl).
Defined.

Lemma mapFields_keeps_owner_without_option_witness :
  mapFields (Some dbNoOptions) (Some storedRecord)
  = (None, Some (mkModel (types.StringValue "p,i,db-1")
                   (types.StringValue "db-1")
                   (types.StringValue "i") (types.StringValue "p")
                   (types.StringValue "renamed") (types.StringValue "alice")))
  /\ types.StringValue "alice" = Owner storedRecord.
Proof.
  split; [reflexivity |].
  exact (proj1 (mapFields_keeps_owner_without_option dbNoOptions storedRecord _
                  eq_refl (or_introl eq_refl))).
Defined.

Lemma getDatabase_first_match_witness :
  ListDatabases (listing [dbNoId; db1; db1Twin]) "p" "i"
  = (Some (InstanceListDatabasesResponse.mk (Some [dbNoId; db1; db1Twin])), None)
  /\ exists out,
       getDatabase (listing [dbNoId; db1; db1Twin]) "p" "i" "db-1" []
       = (Returned out, [CallListDatabases "p" "i"])
       /\ ((exists before database after,
              [dbNoId; db1; db1Twin] = (before ++ database :: after)%list
              /\ InstanceDatabase.Id database = Some "db-1"
              /\ Forall (fun d => InstanceDatabase.Id d <> Some "db-1") before
              /\ out = (Some database, None))
           \/ (Forall (fun d => InstanceDatabase.Id d <> Some "db-1")
                      [dbNoId; db1; db1Twin]
               /\ out = (None, Some (Errorf "database not found")))).
Proof.
  split; [reflexivity |].
  exact (getDatabase_first_match (listing [dbNoId; db1; db1Twin])
           "p" "i" "db-1" [dbNoId; db1; db1Twin] [] eq_refl).
Defined.

Lemma ImportState_round_trip_witness :
  (exists resp' m,
     ImportState (fun s => s) (mkDatabaseResource (listing []))
       (ImportStateRequest.mk (strings.Join ["p"; "i"; "db-1"] core.Separator))
       (mkResponse None []) []
     = (Returned resp', [])
     /\ State resp' = Some m
     /\ ProjectId m = types.StringValue "p"
     /\ InstanceId m = types.StringValue "i"
     /\ DatabaseId m = types.StringValue "db-1"
     /\ diag.HasError (Diagnostics resp') = diag.HasError [])
  /\ (exists resp',
        ImportState (fun s => s) (mkDatabaseResource (listing []))
          (ImportStateRequest.mk "p,i") (mkResponse None []) []
        = (Returned resp', [])
        /\ State resp' = None
        /\ In (importError (fun s => s) "p,i") (Diagnostics resp')
        /\ diag.HasError (Diagnostics resp') = true).
Proof.
  pose proof (ImportState_round_trip (fun s => s)
                (mkDatabaseResource (listing [])) (mkResponse None []) [])
    as [Hjoin Hother].
  split.
  - apply (Hjoin "p" "i" "db-1"); first [discriminate | reflexivity].
  - apply (Hother "p,i"). intros (p & i & d & _ & _ & _ & Fp & Fi & Fd & Heq).
    pose proof (Split_Join_3 p i d Fp Fi Fd) as HS. rewrite <- Heq in HS.
    vm_compute in HS. discriminate HS.
Defined.

(* ===================================================================== *)
(** * Further properties of the resource *)
(* ===================================================================== *)

(** ** The read-mapping: frame, errors, resolution of the database id *)

(** X1: whatever [mapFields] returns, error or not, the record it leaves
    has the [ProjectId] and the [InstanceId] it had; a nil record stays
    nil. *)
Theorem mapFields_keeps_project_and_instance
    (databaseResp : option InstanceDatabase.t) (model : option Model) :
  match (mapFields databaseResp model).2 with
  | Some m' =>
      exists m, model = Some m /\ ProjectId m' = ProjectId m
                /\ InstanceId m' = InstanceId m
  | None => model = None
  end.
Proof.
  unfold mapFields. repeat case_match; cbn in *; simplify_eq; cbn; eauto.
Qed.

(** X2: the type mismatch of the owner is the only error [mapFields]
    returns after it has written to the record: with every other error the
    record is as it was. *)
Theorem mapFields_other_errors_keep_record
    (databaseResp : option InstanceDatabase.t) (model : option Model)
    (e : error) :
  (mapFields databaseResp model).1 = Some e ->
  e <> Errorf "owner is not a string" ->
  (mapFields databaseResp model).2 = model.
Proof.
  unfold mapFields. repeat case_match; cbn; intros; simplify_eq; done.
Qed.

(** X3: [mapFields] returns no error exactly when the remote object is
    not nil, its [Id] is neither nil nor empty, the record is not nil and
    the [owner] option, if there is one, is a string. *)
Theorem mapFields_succeeds_iff (databaseResp : option InstanceDatabase.t)
    (model : option Model) :
  (mapFields databaseResp model).1 = None
  <-> exists resp respId m,
        databaseResp = Some resp /\ model = Some m
        /\ InstanceDatabase.Id resp = Some respId /\ respId <> ""
        /\ match InstanceDatabase.Options resp with
           | Some options =>
               match options !! "owner" with
               | Some owner => asString owner <> None
               | None => True
               end
           | None => True
           end.
Proof.
  split.
  - destruct (mapFields databaseResp model) as [err m'] eqn:H. cbn.
    intros ->.
    destruct (mapFields_ok_guards _ _ _ H)
      as (resp & respId & m & -> & -> & HId & Hne).
    exists resp, respId, m. repeat split; try done.
    rewrite (mapFields_guarded _ _ _ HId Hne) in H.
    destruct (InstanceDatabase.Options resp) as [options|]; [|done]. cbn in H.
    destruct (options !! "owner") as [owner|]; [|done].
    by destruct (asString owner).
  - intros (resp & respId & m & -> & -> & HId & Hne & Hown).
    rewrite (mapFields_guarded _ _ _ HId Hne).
    destruct (InstanceDatabase.Options resp) as [options|]; [|done]. cbn.
    destruct (options !! "owner") as [owner|]; [|done].
    by destruct (asString owner).
Qed.

(** X4: a record that has a [DatabaseId] keeps it through a successful
    [mapFields], whatever the [Id] of the remote object is, and its
    composite [Id] is built from it; only a record without one takes the
    [Id] of the remote object. *)
Theorem mapFields_prefers_stored_database_id (resp : InstanceDatabase.t)
    (m m' : Model) :
  mapFields (Some resp) (Some m) = (None, Some m') ->
  (types.ValueString (DatabaseId m) <> "" ->
   DatabaseId m' = types.StringValue (types.ValueString (DatabaseId m)))
  /\ (types.ValueString (DatabaseId m) = "" ->
      InstanceDatabase.Id resp = Some (types.ValueString (DatabaseId m')))
  /\ Id m'
     = types.StringValue
         (strings.Join [ types.ValueString (ProjectId m);
                         types.ValueString (InstanceId m);
                         types.ValueString (DatabaseId m') ] core.Separator).
Proof.
  intros H.
  destruct (mapFields_ok_guards _ _ _ H)
    as (resp0 & respId & m0 & [= <-] & [= <-] & HId & Hne).
  assert (DatabaseId m' = types.StringValue (resolvedDatabaseId respId m)
          /\ Id m' = Id (mapped resp respId m)) as [HDb HIdm].
  { rewrite (mapFields_guarded _ _ _ HId Hne) in H.
    destruct (InstanceDatabase.Options resp ≫= _) as [owner|].
    - destruct (asString owner); [|done]. by injection H as <-.
    - by injection H as <-. }
  rewrite HDb, HIdm. unfold resolvedDatabaseId. split; [|split; [|done]].
  - intros Hstored. apply nonEmpty_true in Hstored. by rewrite Hstored.
  - intros Hstored. rewrite Hstored. cbn. by rewrite HId.
Qed.

(** X5: when [mapFields] succeeds on a remote object whose [owner] option
    is a string, that string becomes the [Owner] of the record, and the
    [Name] of the record is the remote name, null when the remote object
    has none. *)
Theorem mapFields_takes_owner_and_name (resp : InstanceDatabase.t)
    (m m' : Model) (options : gmap string any) (ownerStr : string) :
  mapFields (Some resp) (Some m) = (None, Some m') ->
  InstanceDatabase.Options resp = Some options ->
  options !! "owner" = Some (anyString ownerStr) ->
  Owner m' = types.StringValue ownerStr
  /\ Name m' = types.StringPointerValue (InstanceDatabase.Name resp)
  /\ (InstanceDatabase.Name resp = None -> Name m' = types.StringNull).
Proof.
  intros H Hopt Hown.
  destruct (mapFields_ok_guards _ _ _ H)
    as (resp0 & respId & m0 & [= <-] & [= <-] & HId & Hne).
  rewrite (mapFields_guarded _ _ _ HId Hne), Hopt in H. cbn in H.
  rewrite Hown in H. cbn in H. injection H as <-. cbn.
  split; [done |]. split; [done |]. by intros ->.
Qed.

(** X6: the payload built from a record and the read-mapping compose: on
    the remote object of a service that lists what the payload asked for,
    under any id that is not empty, [mapFields] succeeds on that record
    and gives it the owner and the name the payload carried.  A known
    owner and a known or null name are therefore unchanged; a null or
    unknown owner becomes the empty string. *)
Theorem mapFields_of_echoed_payload (m : Model) (respId : string) :
  respId <> "" ->
  exists payload m',
    toCreatePayload (Some m) = (Some payload, None)
    /\ mapFields (Some (echo respId payload)) (Some m) = (None, Some m')
    /\ Owner m' = types.StringValue (types.ValueString (Owner m))
    /\ Name m' = types.StringPointerValue (types.ValueStringPointer (Name m))
    /\ (forall o, Owner m = types.StringValue o -> Owner m' = Owner m)
    /\ (Name m <> types.StringUnknown -> Name m' = Name m).
Proof.
  intros Hne. exists (payloadOf m). eexists. split; [reflexivity |].
  split.
  - rewrite (mapFields_guarded (echo respId (payloadOf m)) respId m eq_refl Hne).
    cbn. rewrite lookup_fmap, lookup_singleton_eq. cbn. reflexivity.
  - cbn. split; [done |]. split; [done |]. split.
    + by intros o ->.
    + by destruct (Name m).
Qed.

(** The fields of the record a successful [mapFields] leaves. *)
Lemma mapFields_ok_fields (resp : InstanceDatabase.t) (m m' : Model) :
  mapFields (Some resp) (Some m) = (None, Some m') ->
  exists respId,
    InstanceDatabase.Id resp = Some respId /\ respId <> ""
    /\ ProjectId m' = ProjectId m /\ InstanceId m' = InstanceId m
    /\ DatabaseId m' = types.StringValue (resolvedDatabaseId respId m)
    /\ Id m'
       = types.StringValue
           (strings.Join [ types.ValueString (ProjectId m);
                           types.ValueString (InstanceId m);
                           resolvedDatabaseId respId m ] core.Separator)
    /\ Name m' = types.StringPointerValue (InstanceDatabase.Name resp).
Proof.
  intros H.
  destruct (mapFields_ok_guards _ _ _ H)
    as (resp0 & respId & m0 & [= <-] & [= <-] & HId & Hne).
  exists respId. split; [done |]. split; [done |].
  rewrite (mapFields_guarded _ _ _ HId Hne) in H.
  destruct (InstanceDatabase.Options resp ≫= _) as [owner|].
  - destruct (asString owner); [|done]. by injection H as <-.
  - by injection H as <-.
Qed.

(** ** Lookup-by-scan: what it returns for every answer of the list call *)

Lemma getDatabase_lookupIn (client : APIClient)
    (projectId instanceId databaseId : string) (log : list ApiCall) :
  getDatabase client projectId instanceId databaseId log
  = (Returned (lookupIn (ListDatabases client projectId instanceId) databaseId),
     (log ++ [CallListDatabases projectId instanceId])%list).
Proof.
  unfold getDatabase, mbind, Api_bind, ListDatabasesExecute, lookupIn.
  destruct (ListDatabases client projectId instanceId) as [resp [e|]];
    [done |].
  destruct resp as [[[databases|]]|]; cbn; [|done..].
  by rewrite getDatabase_range_find.
Qed.

(** A database [lookupIn] returns comes without an error, from the list of
    the answer, and has the target as its [Id]. *)
Lemma lookupIn_found
    (answer : option InstanceListDatabasesResponse.t * option error)
    (databaseId : string) (database : InstanceDatabase.t) (err : option error) :
  lookupIn answer databaseId = (Some database, err) ->
  err = None
  /\ exists resp databases,
       answer = (Some resp, None)
       /\ InstanceListDatabasesResponse.Databases resp = Some databases
       /\ In database databases
       /\ InstanceDatabase.Id database = Some databaseId.
Proof.
  unfold lookupIn. destruct answer as [resp [e|]]; [done |].
  destruct resp as [resp|]; [|done].
  destruct (InstanceListDatabasesResponse.Databases resp) as [databases|] eqn:HD;
    [|done].
  destruct (List.find (matches databaseId) databases) as [x|] eqn:Hfind; [|done].
  intros [= -> <-]. split; [done |]. exists resp, databases.
  apply List.find_some in Hfind as [HIn Hm]. apply matches_true in Hm.
  by repeat split.
Qed.

Lemma lookupIn_error (resp : option InstanceListDatabasesResponse.t)
    (e : error) (databaseId : string) :
  lookupIn (resp, Some e) databaseId = (None, Some e).
Proof. reflexivity. Qed.

(** An error of the scan itself is a plain error, never a status 404. *)
Lemma lookupIn_own_error (resp : option InstanceListDatabasesResponse.t)
    (databaseId : string) (databaseResp : option InstanceDatabase.t)
    (e : error) :
  lookupIn (resp, None) databaseId = (databaseResp, Some e) ->
  isNotFound e = false.
Proof.
  unfold lookupIn. repeat case_match; intros; by simplify_eq.
Qed.

(** Without an error [lookupIn] returns a database. *)
Lemma lookupIn_no_error
    (answer : option InstanceListDatabasesResponse.t * option error)
    (databaseId : string) (databaseResp : option InstanceDatabase.t) :
  lookupIn answer databaseId = (databaseResp, None) ->
  exists database, databaseResp = Some database.
Proof.
  unfold lookupIn. repeat case_match; intros; simplify_eq; eauto.
Qed.

(** With a client, [getDatabase] returns after exactly the list call, with
    either a database or an error and never both or neither; the error of
    a failed list call is handed on as it is, and an answer without a
    response or without a list gives the error [response is nil]. *)
Lemma getDatabase_configured (client : APIClient)
    (projectId instanceId databaseId : string) (log : list ApiCall) :
  exists out,
    getDatabase client projectId instanceId databaseId log
    = (Returned out, (log ++ [CallListDatabases projectId instanceId])%list)
    /\ (is_Some out.1 <-> out.2 = None)
    /\ let '(resp, err) := ListDatabases client projectId instanceId in
       match err with
       | Some e => out = (None, Some e)
       | None =>
           match resp with
           | None => out = (None, Some (Errorf "response is nil"))
           | Some resp =>
               InstanceListDatabasesResponse.Databases resp = None ->
               out = (None, Some (Errorf "response is nil"))
           end
       end.
Proof.
  rewrite getDatabase_lookupIn. eexists. split; [reflexivity |].
  unfold lookupIn.
  destruct (ListDatabases client projectId instanceId) as [resp [e|]].
  - split; [|done]. cbn. split; [by intros [? ?] | done].
  - destruct resp as [resp|]; [|split; [|done]; cbn; split;
                                 [by intros [? ?] | done]].
    destruct (InstanceListDatabasesResponse.Databases resp) as [databases|].
    + split; [|done].
      destruct (List.find (matches databaseId) databases); cbn;
        (split; [by eauto | ]); [by eauto | done].
    + split; [|done]. cbn. split; [by intros [? ?] | done].
Qed.

(** ** [Read]: calls, drift detection, what a refresh keeps *)

(** [Read] as a function of the answer of the list call. *)
Lemma Read_run (r : databaseResource) (req : ReadRequest.t) (resp : Response)
    (log : list ApiCall) :
  Read r req resp log
  = if diag.HasError (Diagnostics resp) then (Returned resp, log)
    else
      (Returned
         match lookupIn
                 (ListDatabases (client r)
                    (types.ValueString (ProjectId (ReadRequest.State req)))
                    (types.ValueString (InstanceId (ReadRequest.State req))))
                 (types.ValueString (DatabaseId (ReadRequest.State req))) with
         | (_, Some e) =>
             if isNotFound e then onState tfsdk.RemoveResource resp
             else addError resp "Error reading database"
                    ("Calling API: " +:+ Error e)
         | (databaseResp, None) =>
             match mapFields databaseResp (Some (ReadRequest.State req)) with
             | (Some e, _) =>
                 addError resp "Error reading database"
                   ("Processing API payload: " +:+ Error e)
             | (None, model') =>
                 onState (tfsdk.StateSet
                            (default (ReadRequest.State req) model')) resp
             end
         end,
       (log ++ [CallListDatabases
                  (types.ValueString (ProjectId (ReadRequest.State req)))
                  (types.ValueString (InstanceId (ReadRequest.State req)))])%list).
Proof.
  unfold Read. destruct (diag.HasError (Diagnostics resp)); [done |].
  unfold mbind, Api_bind. rewrite getDatabase_lookupIn.
  destruct (lookupIn _ _) as [databaseResp [e|]].
  - unfold isNotFound. by destruct (match asGenericOpenAPIError e with
                                    | Some StatusCode => _
                                    | None => false
                                    end).
  - by destruct (mapFields databaseResp (Some (ReadRequest.State req)))
      as [[e|] model'].
Qed.

(** X8: a [Read] that reports an error stores nothing: the state of the
    response is the one it had. *)
Theorem Read_error_keeps_state (r : databaseResource) (req : ReadRequest.t)
    (resp resp' : Response) (log log' : list ApiCall) :
  Read r req resp log = (Returned resp', log') ->
  diag.HasError (Diagnostics resp') = true ->
  State resp' = State resp.
Proof.
  rewrite Read_run. destruct (diag.HasError (Diagnostics resp)) eqn:HE.
  { by intros [= <- <-]. }
  destruct (lookupIn _ _) as [databaseResp [e|]].
  - destruct (isNotFound e); intros [= <- <-]; [|done].
    intros H. change (diag.HasError (Diagnostics resp) = true) in H.
    congruence.
  - destruct (mapFields databaseResp (Some (ReadRequest.State req)))
      as [[e|] model']; intros [= <- <-]; [done |].
    intros H. change (diag.HasError (Diagnostics resp) = true) in H.
    congruence.
Qed.

(** X10: drift detection as the code has it.  For a response without a
    prior error, [Read] removes the resource without reporting an error
    exactly when the list call fails with a generic OpenAPI error of
    status 404. *)
Theorem Read_removes_iff_list_call_404 (r : databaseResource)
    (req : ReadRequest.t) (resp resp' : Response) (log log' : list ApiCall) :
  diag.HasError (Diagnostics resp) = false ->
  Read r req resp log = (Returned resp', log') ->
  (State resp' = None /\ diag.HasError (Diagnostics resp') = false)
  <-> exists answer msg,
        ListDatabases (client r)
          (types.ValueString (ProjectId (ReadRequest.State req)))
          (types.ValueString (InstanceId (ReadRequest.State req)))
        = (answer, Some (GenericOpenAPIError 404 msg)).
Proof.
  intros HE. rewrite Read_run, HE.
  destruct (ListDatabases _ _ _) as [answer [e|]].
  - rewrite lookupIn_error.
    destruct (isNotFound e) eqn:H404; intros [= <- <-].
    + split; [|by intros _]. intros _. exists answer.
      destruct e as [msg|code msg|msg]; try done.
      apply Z.eqb_eq in H404. cbn in H404. subst. by exists msg.
    + split.
      * intros [_ HErr]. by rewrite addError_HasError in HErr.
      * intros (a & msg & [= -> ->]). done.
  - destruct (lookupIn (answer, None) _) as [databaseResp [e|]] eqn:HLk.
    + rewrite (lookupIn_own_error _ _ _ _ HLk). intros [= <- <-]. split.
      * intros [_ HErr]. by rewrite addError_HasError in HErr.
      * by intros (a & msg & ?).
    + destruct (mapFields databaseResp (Some (ReadRequest.State req)))
        as [[e|] model']; intros [= <- <-]; split.
      * intros [_ HErr]. by rewrite addError_HasError in HErr.
      * by intros (a & msg & ?).
      * by intros [HS _].
      * by intros (a & msg & ?).
Qed.

(** X11: what a successful refresh keeps.  When [Read] stores a record
    without reporting an error, the stored [DatabaseId] was not empty, the
    new record has the [ProjectId], [InstanceId] and [DatabaseId] of the
    stored one, and its [Name] is that of an element of the list the remote
    service returned whose [Id] is the stored [DatabaseId]. *)
Theorem Read_success_keeps_identifiers (r : databaseResource)
    (req : ReadRequest.t) (resp resp' : Response) (log log' : list ApiCall)
    (m : Model) :
  Read r req resp log = (Returned resp', log') ->
  diag.HasError (Diagnostics resp') = false ->
  State resp' = Some m ->
  types.ValueString (DatabaseId (ReadRequest.State req)) <> ""
  /\ ProjectId m = ProjectId (ReadRequest.State req)
  /\ InstanceId m = InstanceId (ReadRequest.State req)
  /\ DatabaseId m
     = types.StringValue (types.ValueString (DatabaseId (ReadRequest.State req)))
  /\ exists answer databases database,
       ListDatabases (client r)
         (types.ValueString (ProjectId (ReadRequest.State req)))
         (types.ValueString (InstanceId (ReadRequest.State req)))
       = (Some answer, None)
       /\ InstanceListDatabasesResponse.Databases answer = Some databases
       /\ In database databases
       /\ InstanceDatabase.Id database
          = Some (types.ValueString (DatabaseId (ReadRequest.State req)))
       /\ Name m = types.StringPointerValue (InstanceDatabase.Name database).
Proof.
  rewrite Read_run. destruct (diag.HasError (Diagnostics resp)) eqn:HE.
  { intros [= <- <-]. congruence. }
  destruct (lookupIn _ _) as [databaseResp [e|]] eqn:HLk.
  { destruct (isNotFound e); intros [= <- <-]; [done |].
    intros HErr. by rewrite addError_HasError in HErr. }
  destruct (lookupIn_no_error _ _ _ HLk) as [database ->].
  destruct (lookupIn_found _ _ _ _ HLk)
    as (_ & answer & databases & HL & HD & HIn & HId).
  destruct (mapFields (Some database) (Some (ReadRequest.State req)))
    as [[e|] model'] eqn:Hmap; intros [= <- <-].
  { intros HErr. by rewrite addError_HasError in HErr. }
  destruct (mapFields_Some (Some database) (ReadRequest.State req)) as [m' Hm'].
  rewrite Hmap in Hm'. cbn in Hm'. subst model'. intros _ [= <-].
  destruct (mapFields_ok_fields _ _ _ Hmap)
    as (respId & HId' & Hne & HP & HI & HDb & _ & HName).
  rewrite HId in HId'. injection HId' as <-.
  assert (resolvedDatabaseId
            (types.ValueString (DatabaseId (ReadRequest.State req)))
            (ReadRequest.State req)
          = types.ValueString (DatabaseId (ReadRequest.State req))) as Hres.
  { unfold resolvedDatabaseId. by destruct (nonEmpty _). }
  rewrite Hres in HDb. repeat split; try done.
  exists answer, databases, database. by rewrite HL.
Qed.

(** ** [Create]: calls, partial failure, what it stores *)

(** [Create] as a function of the answers of the create and the list
    call. *)
Lemma Create_run (r : databaseResource) (req : CreateRequest.t)
    (resp : Response) (log : list ApiCall) :
  Create r req resp log
  = if diag.HasError (Diagnostics resp) then (Returned resp, log)
    else
      let plan := CreateRequest.Plan req in
      let projectId := types.ValueString (ProjectId plan) in
      let instanceId := types.ValueString (InstanceId plan) in
      let created :=
        (log ++ [CallCreateDatabase projectId instanceId (payloadOf plan)])%list in
      let '(databaseResp, err) :=
        CreateDatabase (client r) projectId instanceId (payloadOf plan) in
      match err with
      | Some e =>
          (Returned (addError resp "Error creating database"
                       ("Calling API: " +:+ Error e)), created)
      | None =>
          match returnedId databaseResp with
          | None =>
              (Returned (addError resp "Error creating database"
                           "API didn't return database Id. A database might have been created"),
               created)
          | Some databaseId =>
              (Returned
                 match lookupIn (ListDatabases (client r) projectId instanceId)
                         databaseId with
                 | (_, Some e) =>
                     addError resp "Error creating database"
                       ("Getting database details after creation: " +:+ Error e)
                 | (database, None) =>
                     match mapFields database (Some plan) with
                     | (Some e, _) =>
                         addError resp "Error creating database"
                           ("Processing API payload: " +:+ Error e)
                     | (None, model') =>
                         onState (tfsdk.StateSet (default plan model')) resp
                     end
                 end,
               (created ++ [CallListDatabases projectId instanceId])%list)
          end
      end.
Proof.
  unfold Create. destruct (diag.HasError (Diagnostics resp)); [done |].
  cbn [toCreatePayload].
  unfold mbind, Api_bind, deref, CreateDatabaseExecute, ret, mret, Api_ret.
  cbv zeta. fold (payloadOf (CreateRequest.Plan req)).
  destruct (CreateDatabase _ _ _ _) as [databaseResp [e|]]; [done |].
  destruct (returnedId databaseResp) as [databaseId|]; [|done].
  rewrite getDatabase_lookupIn.
  destruct (lookupIn _ _) as [database [e|]]; [done |].
  by destruct (mapFields database (Some (CreateRequest.Plan req)))
    as [[e|] model'].
Qed.

(** X12: a [Create] that reports an error stores nothing: the state of
    the response is the one it had. *)
Theorem Create_error_keeps_state (r : databaseResource) (req : CreateRequest.t)
    (resp resp' : Response) (log log' : list ApiCall) :
  Create r req resp log = (Returned resp', log') ->
  diag.HasError (Diagnostics resp') = true ->
  State resp' = State resp.
Proof.
  rewrite Create_run. destruct (diag.HasError (Diagnostics resp)) eqn:HE.
  { by intros [= <- <-]. }
  cbv zeta. destruct (CreateDatabase _ _ _ _) as [databaseResp [e|]].
  { by intros [= <- <-]. }
  destruct (returnedId databaseResp) as [databaseId|];
    [|by intros [= <- <-]].
  destruct (lookupIn _ _) as [database [e|]]; [by intros [= <- <-] |].
  destruct (mapFields database (Some (CreateRequest.Plan req)))
    as [[e|] model']; intros [= <- <-]; [done |].
  intros H. change (diag.HasError (Diagnostics resp) = true) in H. congruence.
Qed.

(** The remote calls of [Create] on a configured resource, for a response
    without a prior error: the create call first, then the list call
    exactly when the create call returned without an error an id that is
    not empty. *)
Lemma Create_calls_configured (r : databaseResource) (req : CreateRequest.t)
    (resp : Response) (log : list ApiCall) :
  diag.HasError (Diagnostics resp) = false ->
  exists resp' payload rest,
    toCreatePayload (Some (CreateRequest.Plan req)) = (Some payload, None)
    /\ Create r req resp log
       = (Returned resp',
          (log ++ CallCreateDatabase
                    (types.ValueString (ProjectId (CreateRequest.Plan req)))
                    (types.ValueString (InstanceId (CreateRequest.Plan req)))
                    payload :: rest)%list)
    /\ (rest = []
        \/ rest = [CallListDatabases
                     (types.ValueString (ProjectId (CreateRequest.Plan req)))
                     (types.ValueString (InstanceId (CreateRequest.Plan req)))])
    /\ (rest <> []
        <-> exists created id,
              CreateDatabase (client r)
                (types.ValueString (ProjectId (CreateRequest.Plan req)))
                (types.ValueString (InstanceId (CreateRequest.Plan req)))
                payload
              = (Some created, None)
              /\ InstanceCreateDatabaseResponse.Id created = Some id
              /\ id <> "").
Proof.
  intros HE. rewrite Create_run, HE. cbv zeta.
  destruct (CreateDatabase _ _ _ _) as [databaseResp [e|]] eqn:HC.
  { eexists _, (payloadOf (CreateRequest.Plan req)), [].
    split; [done |]. split; [done |]. split; [by left |].
    split; [done |]. intros (c & id & Hc & _). by rewrite HC in Hc. }
  destruct (returnedId databaseResp) as [databaseId|] eqn:HR.
  - eexists _, (payloadOf (CreateRequest.Plan req)), [_].
    split; [done |]. split; [by rewrite <- app_assoc |]. split; [by right |].
    split; [|done]. intros _. unfold returnedId in HR.
    destruct databaseResp as [created|]; [|done].
    destruct (InstanceCreateDatabaseResponse.Id created) as [id|] eqn:HId;
      [|done].
    destruct (nonEmpty id) eqn:Hne; [|done].
    exists created, id. apply nonEmpty_true in Hne. by rewrite HC.
  - eexists _, (payloadOf (CreateRequest.Plan req)), [].
    split; [done |]. split; [done |]. split; [by left |].
    split; [done |]. intros (created & id & Hc & HId & Hne).
    rewrite HC in Hc. injection Hc as ->.
    unfold returnedId in HR. rewrite HId in HR.
    apply nonEmpty_true in Hne. by rewrite Hne in HR.
Qed.

(** X14: the partial failure of [Create].  When the create call returns no
    error but no usable id (a nil response, a nil [Id] or an empty [Id]),
    [Create] reports that a database might have been created, stores
    nothing and makes no list call. *)
Theorem Create_without_returned_id (r : databaseResource)
    (req : CreateRequest.t) (resp : Response) (log : list ApiCall)
    (payload : CreateDatabasePayload.t)
    (databaseResp : option InstanceCreateDatabaseResponse.t) :
  diag.HasError (Diagnostics resp) = false ->
  toCreatePayload (Some (CreateRequest.Plan req)) = (Some payload, None) ->
  CreateDatabase (client r)
    (types.ValueString (ProjectId (CreateRequest.Plan req)))
    (types.ValueString (InstanceId (CreateRequest.Plan req))) payload
  = (databaseResp, None) ->
  (databaseResp = None
   \/ exists created,
        databaseResp = Some created
        /\ (InstanceCreateDatabaseResponse.Id created = None
            \/ InstanceCreateDatabaseResponse.Id created = Some "")) ->
  exists resp',
    Create r req resp log
    = (Returned resp',
       (log ++ [CallCreateDatabase
                  (types.ValueString (ProjectId (CreateRequest.Plan req)))
                  (types.ValueString (InstanceId (CreateRequest.Plan req)))
                  payload])%list)
    /\ State resp' = State resp
    /\ In (diag.mkDiagnostic diag.SeverityError "Error creating database"
             "API didn't return database Id. A database might have been created")
          (Diagnostics resp')
    /\ diag.HasError (Diagnostics resp') = true.
Proof.
  intros HE Hpayload HC Hno.
  assert (payload = payloadOf (CreateRequest.Plan req)) as ->
    by (unfold toCreatePayload in Hpayload; by injection Hpayload as <-).
  rewrite Create_run, HE. cbv zeta. rewrite HC.
  assert (returnedId databaseResp = None) as ->.
  { destruct Hno as [-> | (created & -> & [HId | HId])]; cbn; [done | |];
      by rewrite HId. }
  eexists. split; [reflexivity |]. split; [done |].
  split; [apply In_Append | apply addError_HasError].
Qed.

(** X15: what a successful [Create] stores.  When [Create] stores a record
    without reporting an error, the create call returned an id that is not
    empty, the list the remote service returned has an element with that
    id, and the stored record is the read-mapping of that element onto the
    plan: it has the [ProjectId] and the [InstanceId] of the plan and, the
    [DatabaseId] of a plan being unknown or null, the returned id as its
    [DatabaseId] and as the last part of its composite [Id]. *)
Theorem Create_success_stores_returned_id (r : databaseResource)
    (req : CreateRequest.t) (resp resp' : Response) (log log' : list ApiCall)
    (m : Model) :
  Create r req resp log = (Returned resp', log') ->
  diag.HasError (Diagnostics resp') = false ->
  State resp' = Some m ->
  exists created id answer databases database,
    CreateDatabase (client r)
      (types.ValueString (ProjectId (CreateRequest.Plan req)))
      (types.ValueString (InstanceId (CreateRequest.Plan req)))
      (payloadOf (CreateRequest.Plan req))
    = (Some created, None)
    /\ InstanceCreateDatabaseResponse.Id created = Some id /\ id <> ""
    /\ ListDatabases (client r)
         (types.ValueString (ProjectId (CreateRequest.Plan req)))
         (types.ValueString (InstanceId (CreateRequest.Plan req)))
       = (Some answer, None)
    /\ InstanceListDatabasesResponse.Databases answer = Some databases
    /\ In database databases
    /\ InstanceDatabase.Id database = Some id
    /\ mapFields (Some database) (Some (CreateRequest.Plan req)) = (None, Some m)
    /\ ProjectId m = ProjectId (CreateRequest.Plan req)
    /\ InstanceId m = InstanceId (CreateRequest.Plan req)
    /\ (types.ValueString (DatabaseId (CreateRequest.Plan req)) = "" ->
        DatabaseId m = types.StringValue id
        /\ Id m = types.StringValue
                    (strings.Join
                       [ types.ValueString (ProjectId (CreateRequest.Plan req));
                         types.ValueString (InstanceId (CreateRequest.Plan req));
                         id ] core.Separator)).
Proof.
  rewrite Create_run. destruct (diag.HasError (Diagnostics resp)) eqn:HE.
  { intros [= <- <-]. congruence. }
  cbv zeta. destruct (CreateDatabase _ _ _ _) as [databaseResp [e|]].
  { intros [= <- <-] HErr. by rewrite addError_HasError in HErr. }
  destruct (returnedId databaseResp) as [id|] eqn:HR;
    [|intros [= <- <-] HErr; by rewrite addError_HasError in HErr].
  destruct (lookupIn _ _) as [databaseOpt [e|]] eqn:HLk.
  { intros [= <- <-] HErr. by rewrite addError_HasError in HErr. }
  destruct (lookupIn_no_error _ _ _ HLk) as [database ->].
  destruct (lookupIn_found _ _ _ _ HLk)
    as (_ & answer & databases & HL & HD & HIn & HId).
  destruct (mapFields (Some database) (Some (CreateRequest.Plan req)))
    as [[e|] model'] eqn:Hmap; intros [= <- <-].
  { intros HErr. by rewrite addError_HasError in HErr. }
  destruct (mapFields_Some (Some database) (CreateRequest.Plan req)) as [m' Hm'].
  rewrite Hmap in Hm'. cbn in Hm'. subst model'. intros _ [= <-].
  unfold returnedId in HR. destruct databaseResp as [created|]; [|done].
  destruct (InstanceCreateDatabaseResponse.Id created) as [id'|] eqn:HCId;
    [|done].
  destruct (nonEmpty id') eqn:Hne; [|done]. injection HR as ->.
  apply nonEmpty_true in Hne.
  destruct (mapFields_ok_fields _ _ _ Hmap)
    as (respId & HId' & _ & HP & HI & HDb & HIdm & _).
  rewrite HId in HId'. injection HId' as <-.
  exists created, id, answer, databases, database.
  split_and!; try done.
  intros Hplan. rewrite HDb, HIdm. unfold resolvedDatabaseId.
  by rewrite Hplan.
Qed.

(** ** [Delete] *)

(** [Delete] on a configured resource. *)
Lemma Delete_configured (r : databaseResource)
    (req : DeleteRequest.t) (resp : Response) (log : list ApiCall) :
  exists resp',
    Delete r req resp log
    = (Returned resp',
       if diag.HasError (Diagnostics resp) then log
       else (log ++ [CallDeleteDatabase
                       (types.ValueString (ProjectId (DeleteRequest.State req)))
                       (types.ValueString (InstanceId (DeleteRequest.State req)))
                       (types.ValueString (DatabaseId (DeleteRequest.State req)))])%list)
    /\ State resp' = State resp
    /\ (diag.HasError (Diagnostics resp) = false ->
        (diag.HasError (Diagnostics resp') = true
         <-> DeleteDatabase (client r)
               (types.ValueString (ProjectId (DeleteRequest.State req)))
               (types.ValueString (InstanceId (DeleteRequest.State req)))
               (types.ValueString (DatabaseId (DeleteRequest.State req)))
             <> None)).
Proof.
  unfold Delete. destruct (diag.HasError (Diagnostics resp)) eqn:HE.
  { eexists. split; [reflexivity |]. by split. }
  unfold mbind, Api_bind, DeleteDatabaseExecute.
  destruct (DeleteDatabase _ _ _ _) as [e|].
  - eexists. split; [reflexivity |]. split; [done |]. intros _.
    by rewrite addError_HasError.
  - eexists. split; [reflexivity |]. split; [done |]. intros _.
    rewrite HE. by split.
Qed.

(** ** [ImportState] and the composite id *)

(** A successful import, by the parts of the identifier. *)
Lemma ImportState_ok (Quote : string -> string) (r : databaseResource)
    (raw : string) (resp resp' : Response) (log log' : list ApiCall) :
  ImportState Quote r (ImportStateRequest.mk raw) resp log
  = (Returned resp', log') ->
  diag.HasError (Diagnostics resp') = false ->
  exists p i d,
    strings.Split raw core.Separator = [p; i; d]
    /\ p <> "" /\ i <> "" /\ d <> ""
    /\ resp'
       = addWarning
           (mkResponse
              (Some (set_DatabaseId (types.StringValue d)
                       (set_InstanceId (types.StringValue i)
                          (set_ProjectId (types.StringValue p)
                             (default tfsdk.nullModel (State resp))))))
              (Diagnostics resp))
           "Postgresflex database imported with empty password"
           "The database password is not imported as it is only available upon creation of a new database. The password field will be empty.".
Proof.
  rewrite ImportState_cases.
  destruct (strings.Split raw core.Separator) as [|p [|i [|d [|x l]]]];
    try (intros [= <- <-] HErr; cbn [Diagnostics] in HErr;
         by rewrite HasError_AddError in HErr).
  destruct (nonEmpty p && nonEmpty i && nonEmpty d) eqn:Hne;
    [|intros [= <- <-] HErr; cbn [Diagnostics] in HErr;
      by rewrite HasError_AddError in HErr].
  intros [= <- <-] _. exists p, i, d.
  apply andb_true_iff in Hne as [Hne Hd]. apply andb_true_iff in Hne as [Hp Hi].
  apply nonEmpty_true in Hp, Hi, Hd. by repeat split.
Qed.

(** X17: import and refresh compose.  The three identifiers an import
    without error seeds join back to the imported string, and a [Read] of
    the seeded record that stores a record without error stores one whose
    composite [Id] is the imported string. *)
Theorem ImportState_then_Read_restores_id (Quote : string -> string)
    (r : databaseResource) (raw : string) (resp0 resp1 : Response)
    (log0 log1 : list ApiCall) (m : Model) :
  ImportState Quote r (ImportStateRequest.mk raw) resp0 log0
  = (Returned resp1, log1) ->
  diag.HasError (Diagnostics resp1) = false ->
  State resp1 = Some m ->
  strings.Join [ types.ValueString (ProjectId m);
                 types.ValueString (InstanceId m);
                 types.ValueString (DatabaseId m) ] core.Separator = raw
  /\ forall r' resp resp' log log' m',
       Read r' (ReadRequest.mk m) resp log = (Returned resp', log') ->
       diag.HasError (Diagnostics resp') = false ->
       State resp' = Some m' ->
       Id m' = types.StringValue raw.
Proof.
  intros HI HE HS.
  destruct (ImportState_ok _ _ _ _ _ _ _ HI HE)
    as (p & i & d & HSplit & Hp & Hi & Hd & ->).
  injection HS as <-.
  assert (strings.Join [p; i; d] core.Separator = raw) as HJ.
  { rewrite <- HSplit. apply Join_Split. }
  split; [exact HJ |].
  intros r' resp resp' log log' m' HR HE' HS'.
  destruct (Read_stored _ _ _ _ _ _ _ HR HE' HS') as [databaseResp Hmap].
  cbn [ReadRequest.State] in Hmap.
  destruct (mapFields_ok_guards _ _ _ Hmap)
    as (database & respId & m0 & -> & _ & _ & _).
  destruct (mapFields_ok_fields _ _ _ Hmap)
    as (respId' & _ & _ & _ & _ & _ & HIdm & _).
  rewrite HIdm. f_equal. rewrite <- HJ. unfold resolvedDatabaseId.
  cbn [DatabaseId set_DatabaseId types.ValueString].
  apply nonEmpty_true in Hd. by rewrite Hd.
Qed.

(** X18: the frame of [ImportState].  An import without error writes the
    three identifiers only: [Id], [Name] and [Owner] of the state are the
    ones it had (null in a fresh state), and the warning about the password
    is among the diagnostics. *)
Theorem ImportState_writes_identifiers_only (Quote : string -> string)
    (r : databaseResource) (raw : string) (resp resp' : Response)
    (log log' : list ApiCall) :
  ImportState Quote r (ImportStateRequest.mk raw) resp log
  = (Returned resp', log') ->
  diag.HasError (Diagnostics resp') = false ->
  exists m,
    State resp' = Some m
    /\ Id m = Id (default tfsdk.nullModel (State resp))
    /\ Name m = Name (default tfsdk.nullModel (State resp))
    /\ Owner m = Owner (default tfsdk.nullModel (State resp))
    /\ In (diag.mkDiagnostic diag.SeverityWarning
             "Postgresflex database imported with empty password"
             "The database password is not imported as it is only available upon creation of a new database. The password field will be empty.")
          (Diagnostics resp').
Proof.
  intros HI HE.
  destruct (ImportState_ok _ _ _ _ _ _ _ HI HE)
    as (p & i & d & _ & _ & _ & _ & ->).
  eexists. split; [reflexivity |]. repeat split. apply In_Append.
Qed.

(** ** [Configure], [Schema] and [Metadata] *)

(** X19: a [Configure] that adds a diagnostic has failed: the provider
    data was not nil, the diagnostics then hold an error, and the client of
    the resource is the one it had, configured or not. *)
Theorem Configure_failure_keeps_client {http_RoundTripper : Type}
    (NewAPIClient :
       list (ConfigurationOption http_RoundTripper)
       -> option APIClient * option error)
    (client : option APIClient)
    (ProviderData : option (ProviderDataValue http_RoundTripper))
    (diagnostics : diag.Diagnostics) :
  (Configure NewAPIClient client ProviderData diagnostics).2 <> diagnostics ->
  (Configure NewAPIClient client ProviderData diagnostics).1 = client
  /\ diag.HasError (Configure NewAPIClient client ProviderData diagnostics).2
     = true
  /\ ProviderData <> None.
Proof.
  unfold Configure. destruct ProviderData as [[providerData|goType]|]; cbn.
  - destruct (if nonEmpty (PostgresFlexCustomEndpoint providerData)
              then NewAPIClient _ else NewAPIClient _) as [apiClient [e|]];
      cbn; [|done].
    intros _. split; [done |]. split; [apply HasError_AddError | done].
  - intros _. split; [done |]. split; [apply HasError_AddError | done].
  - done.
Qed.

(** X20: a custom endpoint takes precedence over the region.  With an
    endpoint that is not empty the client is built from the round tripper
    and the endpoint alone, so the outcome of [Configure] is the same for
    every region; when that construction succeeds its client becomes the
    client of the resource and no diagnostic is added. *)
Theorem Configure_endpoint_overrides_region {http_RoundTripper : Type}
    (NewAPIClient :
       list (ConfigurationOption http_RoundTripper)
       -> option APIClient * option error)
    (client : option APIClient) (rt : http_RoundTripper)
    (region region' endpoint : string) (diagnostics : diag.Diagnostics) :
  endpoint <> "" ->
  Configure NewAPIClient client
    (Some (isProviderData (mkProviderData rt region endpoint))) diagnostics
  = Configure NewAPIClient client
      (Some (isProviderData (mkProviderData rt region' endpoint))) diagnostics
  /\ forall apiClient,
       NewAPIClient [WithCustomAuth rt; WithEndpoint endpoint]
       = (apiClient, None) ->
       Configure NewAPIClient client
         (Some (isProviderData (mkProviderData rt region endpoint))) diagnostics
       = (apiClient, diagnostics).
Proof.
  intros Hne. apply nonEmpty_true in Hne. unfold Configure. cbn.
  rewrite Hne. split; [done |]. by intros apiClient ->.
Qed.

(** X21: the schema has the six attributes of the record and no other.
    Each is either required or computed, never both; every required
    attribute requires replacement when it changes, so no change of the
    configuration can be applied in place; every computed attribute keeps
    its state while unknown; the three identifiers of the composite id are
    validated to hold no separator; and the project and the instance, and
    only they, are validated as UUIDs. *)
Theorem Schema_attributes :
  dom (schema.Attributes Schema)
  = list_to_set ["id"; "database_id"; "instance_id"; "project_id"; "name"; "owner"]
  /\ forall name a,
       schema.Attributes Schema !! name = Some a ->
       schema.StringAttribute.Required a
       = negb (schema.StringAttribute.Computed a)
       /\ (schema.StringAttribute.Required a = true ->
           In schema.RequiresReplace (schema.StringAttribute.PlanModifiers a))
       /\ (schema.StringAttribute.Computed a = true ->
           In schema.UseStateForUnknown (schema.StringAttribute.PlanModifiers a))
       /\ (name = "project_id" \/ name = "instance_id" \/ name = "database_id" ->
           In schema.NoSeparator (schema.StringAttribute.Validators a))
       /\ (In schema.UUID (schema.StringAttribute.Validators a)
           <-> name = "project_id" \/ name = "instance_id").
Proof.
  split.
  - unfold Schema. cbn [schema.Attributes]. rewrite dom_list_to_map_L.
    reflexivity.
  - intros name a H. unfold Schema in H. cbn [schema.Attributes] in H.
    apply elem_of_list_to_map_2 in H.
    repeat (apply elem_of_cons in H as [[= -> ->] | H]);
      [..| by apply elem_of_nil in H];
      cbn; intuition (discriminate || eauto).
Qed.

Lemma append_length (s t : string) :
  String.length (s +:+ t) = String.length s + String.length t.
Proof.
  induction s as [|a s IH]; [done |]. rewrite append_cons. cbn. by rewrite IH.
Qed.

Lemma append_inj_r (t s1 s2 : string) : s1 +:+ t = s2 +:+ t -> s1 = s2.
Proof.
  revert s2. induction s1 as [|a s1 IH]; intros [|b s2] H; [done | | |].
  - apply (f_equal String.length) in H.
    rewrite append_nil_l, append_cons in H. cbn in H.
    rewrite append_length in H. lia.
  - apply (f_equal String.length) in H.
    rewrite append_nil_l, append_cons in H. cbn in H.
    rewrite append_length in H. lia.
  - rewrite !append_cons in H. injection H as -> H. f_equal. by apply IH.
Qed.

(** X22: the type name [Metadata] gives is the name of the provider
    followed by [_postgresflex_database], so it is 22 bytes longer than
    that name and has it as a prefix, and two providers get the same type
    name only if they have the same name. *)
Theorem Metadata_type_name (a b : string) :
  Metadata a = a +:+ "_postgresflex_database"
  /\ String.length (Metadata a) = String.length a + 22
  /\ String.prefix a (Metadata a) = true
  /\ (Metadata a = Metadata b -> a = b).
Proof.
  unfold Metadata. split; [done |]. split; [by rewrite append_length |]. split.
  - induction a as [|c a IH]; [done |]. rewrite append_cons. cbn.
    by destruct (ascii_dec c c).
  - apply append_inj_r.
Qed.

(** ** The further properties at the sample data *)

Lemma mapFields_other_errors_keep_record_witness :
  (mapFields None (Some storedRecord)).1 = Some (Errorf "response is nil")
  /\ (mapFields None (Some storedRecord)).2 = Some storedRecord.
Proof.
  split; [reflexivity |].
  apply (mapFields_other_errors_keep_record None (Some storedRecord)
           (Errorf "response is nil")); [reflexivity | discriminate].
Defined.

Lemma mapFields_prefers_stored_database_id_witness :
  mapFields (Some dbOther) (Some storedRecord)
  = (None, Some (mkModel (types.StringValue "p,i,db-1")
                   (types.StringValue "db-1")
                   (types.StringValue "i") (types.StringValue "p")
                   (types.StringValue "other") (types.StringValue "alice")))
  /\ types.StringValue "db-1"
     = types.StringValue (types.ValueString (DatabaseId storedRecord)).
Proof.
  split; [reflexivity |].
  apply (proj1 (mapFields_prefers_stored_database_id dbOther storedRecord _
                  eq_refl)).
  discriminate.
Defined.

Lemma mapFields_takes_owner_and_name_witness :
  mapFields (Some db1) (Some plannedRecord) = (None, Some mappedRecord)
  /\ Owner mappedRecord = types.StringValue "alice"
  /\ Name mappedRecord = types.StringValue "mydb".
Proof.
  split; [reflexivity |].
  destruct (mapFields_takes_owner_and_name db1 plannedRecord mappedRecord
              {[ "owner" := anyString "alice" ]} "alice"
              eq_refl eq_refl eq_refl) as (HOwner & HName & _).
  split; [exact HOwner | exact HName].
Defined.

Lemma mapFields_of_echoed_payload_witness :
  "db-9" <> ""
  /\ exists m',
       mapFields (Some (echo "db-9" (payloadOf storedRecord))) (Some storedRecord)
       = (None, Some m')
       /\ Owner m' = types.StringValue "alice"
       /\ Name m' = types.StringValue "mydb".
Proof.
  split; [discriminate |].
  destruct (mapFields_of_echoed_payload storedRecord "db-9" ltac:(discriminate))
    as (payload & m' & Hp & Hmap & HOwner & HName & _).
  injection Hp as <-. exists m'. split; [exact Hmap |].
  split; [exact HOwner | exact HName].
Defined.

Lemma Read_error_keeps_state_witness :
  Read (mkDatabaseResource (listing [])) (ReadRequest.mk storedRecord)
       (mkResponse (Some storedRecord) []) []
  = (Returned (addError (mkResponse (Some storedRecord) [])
                 "Error reading database" "Calling API: database not found"),
     [CallListDatabases "p" "i"])
  /\ State (addError (mkResponse (Some storedRecord) [])
              "Error reading database" "Calling API: database not found")
     = Some storedRecord.
Proof.
  split; [reflexivity |].
  exact (Read_error_keeps_state (mkDatabaseResource (listing []))
           (ReadRequest.mk storedRecord) (mkResponse (Some storedRecord) [])
           _ [] _ eq_refl eq_refl).
Defined.

Lemma Read_removes_iff_list_call_404_witness :
  Read (mkDatabaseResource
          (answering (None, None)
             (None, Some (GenericOpenAPIError 404 "instance not found")) None))
       (ReadRequest.mk storedRecord) (mkResponse (Some storedRecord) []) []
  = (Returned (mkResponse None []), [CallListDatabases "p" "i"])
  /\ State (mkResponse None []) = None
  /\ diag.HasError (Diagnostics (mkResponse None [])) = false.
Proof.
  split; [reflexivity |].
  apply (proj2 (Read_removes_iff_list_call_404
                  (mkDatabaseResource
                     (answering (None, None)
                        (None, Some (GenericOpenAPIError 404 "instance not found"))
                        None))
                  (ReadRequest.mk storedRecord)
                  (mkResponse (Some storedRecord) []) (mkResponse None [])
                  [] [CallListDatabases "p" "i"] eq_refl eq_refl)).
  exists None, "instance not found". reflexivity.
Defined.

Lemma Read_success_keeps_identifiers_witness :
  Read (mkDatabaseResource (listing [dbNoId; db1])) (ReadRequest.mk storedRecord)
       (mkResponse (Some storedRecord) []) []
  = (Returned (mkResponse (Some mappedRecord) []), [CallListDatabases "p" "i"])
  /\ ProjectId mappedRecord = ProjectId storedRecord
  /\ InstanceId mappedRecord = InstanceId storedRecord
  /\ DatabaseId mappedRecord = types.StringValue "db-1".
Proof.
  split; [reflexivity |].
  destruct (Read_success_keeps_identifiers
              (mkDatabaseResource (listing [dbNoId; db1]))
              (ReadRequest.mk storedRecord) (mkResponse (Some storedRecord) [])
              _ [] _ mappedRecord eq_refl eq_refl eq_refl)
    as (_ & HP & HI & HD & _).
  split; [exact HP |]. split; [exact HI | exact HD].
Defined.

Lemma Create_error_keeps_state_witness :
  Create (mkDatabaseResource
            (answering (None, Some (otherError "connection refused"))
               (None, None) None))
         (CreateRequest.mk plannedRecord) (mkResponse None []) []
  = (Returned (addError (mkResponse None []) "Error creating database"
                 "Calling API: connection refused"),
     [CallCreateDatabase "p" "i" (payloadOf plannedRecord)])
  /\ State (addError (mkResponse None []) "Error creating database"
              "Calling API: connection refused") = None.
Proof.
  split; [reflexivity |].
  exact (Create_error_keeps_state
           (mkDatabaseResource
              (answering (None, Some (otherError "connection refused"))
                 (None, None) None))
           (CreateRequest.mk plannedRecord) (mkResponse None []) _ [] _
           eq_refl eq_refl).
Defined.

Lemma Create_without_returned_id_witness :
  exists resp',
    Create (mkDatabaseResource
              (answering (Some (InstanceCreateDatabaseResponse.mk None), None)
                 (None, None) None))
           (CreateRequest.mk plannedRecord) (mkResponse None []) []
    = (Returned resp', [CallCreateDatabase "p" "i" (payloadOf plannedRecord)])
    /\ State resp' = None
    /\ diag.HasError (Diagnostics resp') = true.
Proof.
  destruct (Create_without_returned_id
              (mkDatabaseResource
                 (answering (Some (InstanceCreateDatabaseResponse.mk None), None)
                    (None, None) None))
              (CreateRequest.mk plannedRecord) (mkResponse None []) []
              (payloadOf plannedRecord)
              (Some (InstanceCreateDatabaseResponse.mk None))
              eq_refl eq_refl eq_refl
              (or_intror (ex_intro _ (InstanceCreateDatabaseResponse.mk None)
                            (conj eq_refl (or_introl eq_refl)))))
    as (resp' & HC & HS & _ & HE).
  exists resp'. split; [exact HC |]. split; [exact HS | exact HE].
Defined.

Lemma Create_success_stores_returned_id_witness :
  Create (mkDatabaseResource (listing [db1])) (CreateRequest.mk plannedRecord)
         (mkResponse None []) []
  = (Returned (mkResponse (Some mappedRecord) []),
     [CallCreateDatabase "p" "i" (payloadOf plannedRecord);
      CallListDatabases "p" "i"])
  /\ exists id,
       DatabaseId mappedRecord = types.StringValue id
       /\ Id mappedRecord
          = types.StringValue (strings.Join ["p"; "i"; id] core.Separator).
Proof.
  split; [reflexivity |].
  destruct (Create_success_stores_returned_id
              (mkDatabaseResource (listing [db1]))
              (CreateRequest.mk plannedRecord) (mkResponse None []) _ [] _
              mappedRecord eq_refl eq_refl eq_refl)
    as (created & id & answer & databases & database & _ & _ & _ & _ & _ & _
        & _ & _ & _ & _ & Hplan).
  exists id. exact (Hplan eq_refl).
Defined.

Lemma ImportState_then_Read_restores_id_witness :
  ImportState (fun s => s) (mkDatabaseResource (listing [db1]))
    (ImportStateRequest.mk "p,i,db-1") (mkResponse None []) []
  = (Returned
       (addWarning
          (mkResponse
             (Some (mkModel types.StringNull (types.StringValue "db-1")
                      (types.StringValue "i") (types.StringValue "p")
                      types.StringNull types.StringNull)) [])
          "Postgresflex database imported with empty password"
          "The database password is not imported as it is only available upon creation of a new database. The password field will be empty."),
     [])
  /\ strings.Join ["p"; "i"; "db-1"] core.Separator = "p,i,db-1".
Proof.
  split; [reflexivity |].
  exact (proj1 (ImportState_then_Read_restores_id (fun s => s)
                  (mkDatabaseResource (listing [db1])) "p,i,db-1"
                  (mkResponse None []) _ [] _ _ eq_refl eq_refl eq_refl)).
Defined.

Lemma ImportState_writes_identifiers_only_witness :
  ImportState (fun s => s) (mkDatabaseResource (listing []))
    (ImportStateRequest.mk "q,j,db-7") (mkResponse (Some storedRecord) []) []
  = (Returned
       (addWarning
          (mkResponse
             (Some (mkModel types.StringNull (types.StringValue "db-7")
                      (types.StringValue "j") (types.StringValue "q")
                      (types.StringValue "mydb") (types.StringValue "alice")))
             [])
          "Postgresflex database imported with empty password"
          "The database password is not imported as it is only available upon creation of a new database. The password field will be empty."),
     [])
  /\ exists m,
       Id m = types.StringNull
       /\ Name m = types.StringValue "mydb"
       /\ Owner m = types.StringValue "alice".
Proof.
  split; [reflexivity |].
  destruct (ImportState_writes_identifiers_only (fun s => s)
              (mkDatabaseResource (listing [])) "q,j,db-7"
              (mkResponse (Some storedRecord) []) _ [] _ eq_refl eq_refl)
    as (m & _ & HId & HName & HOwner & _).
  exists m. split; [exact HId |]. split; [exact HName | exact HOwner].
Defined.

Lemma Configure_failure_keeps_client_witness :
  (Configure failingNewAPIClient (Some (listing []))
     (Some (isProviderData (mkProviderData tt "eu01" ""))) []).2 <> []
  /\ (Configure failingNewAPIClient (Some (listing []))
        (Some (isProviderData (mkProviderData tt "eu01" ""))) []).1
     = Some (listing []).
Proof.
  split; [discriminate |].
  apply (Configure_failure_keeps_client failingNewAPIClient (Some (listing []))
           (Some (isProviderData (mkProviderData tt "eu01" ""))) []).
  discriminate.
Defined.

Lemma Configure_endpoint_overrides_region_witness :
  "https://postgres.example" <> ""
  /\ Configure failingNewAPIClient None
       (Some (isProviderData
                (mkProviderData tt "eu01" "https://postgres.example"))) []
     = Configure failingNewAPIClient None
         (Some (isProviderData
                  (mkProviderData tt "eu02" "https://postgres.example"))) [].
Proof.
  split; [discriminate |].
  apply (Configure_endpoint_overrides_region failingNewAPIClient None tt
           "eu01" "eu02" "https://postgres.example" []).
  discriminate.
Defined.

(** ** A refresh right after a create or a refresh finds no drift *)

(** Mapping the same remote object onto the record it produced gives that
    record again. *)
Lemma mapFields_stable (database : InstanceDatabase.t) (m0 m : Model) :
  mapFields (Some database) (Some m0) = (None, Some m) ->
  mapFields (Some database) (Some m) = (None, Some m).
Proof.
  intros H.
  destruct (mapFields_ok_guards _ _ _ H)
    as (resp & respId & m1 & [= <-] & [= <-] & HId & Hne).
  rewrite (mapFields_guarded _ _ _ HId Hne) in H.
  rewrite (mapFields_guarded _ _ _ HId Hne).
  destruct (InstanceDatabase.Options database ≫= _) as [owner|].
  - destruct (asString owner) as [ownerStr|]; [|done]. injection H as <-.
    by rewrite mapped_set_Owner, mapped_idempotent, set_Owner_twice.
  - injection H as <-. by rewrite mapped_idempotent.
Qed.

(** The element a successful [Read] found and mapped. *)
Lemma Read_stored_found (r : databaseResource) (req : ReadRequest.t)
    (resp resp' : Response) (log log' : list ApiCall) (m : Model) :
  Read r req resp log = (Returned resp', log') ->
  diag.HasError (Diagnostics resp') = false ->
  State resp' = Some m ->
  exists database,
    lookupIn
      (ListDatabases (client r)
         (types.ValueString (ProjectId (ReadRequest.State req)))
         (types.ValueString (InstanceId (ReadRequest.State req))))
      (types.ValueString (DatabaseId (ReadRequest.State req)))
    = (Some database, None)
    /\ mapFields (Some database) (Some (ReadRequest.State req)) = (None, Some m).
Proof.
  rewrite Read_run. destruct (diag.HasError (Diagnostics resp)) eqn:HE.
  { intros [= <- <-]. congruence. }
  destruct (lookupIn _ _) as [databaseResp [e|]] eqn:HLk.
  { destruct (isNotFound e); intros [= <- <-]; [done |].
    intros HErr. by rewrite addError_HasError in HErr. }
  destruct (lookupIn_no_error _ _ _ HLk) as [database ->].
  destruct (mapFields (Some database) (Some (ReadRequest.State req)))
    as [[e|] model'] eqn:Hmap; intros [= <- <-].
  { intros HErr. by rewrite addError_HasError in HErr. }
  destruct (mapFields_Some (Some database) (ReadRequest.State req)) as [m' Hm'].
  rewrite Hmap in Hm'. cbn in Hm'. subst model'. intros _ [= <-].
  by exists database.
Qed.

(** The element a successful [Create] found and mapped, under the id the
    create call returned. *)
Lemma Create_stored_found (r : databaseResource) (req : CreateRequest.t)
    (resp resp' : Response) (log log' : list ApiCall) (m : Model) :
  Create r req resp log = (Returned resp', log') ->
  diag.HasError (Diagnostics resp') = false ->
  State resp' = Some m ->
  exists id database,
    lookupIn
      (ListDatabases (client r)
         (types.ValueString (ProjectId (CreateRequest.Plan req)))
         (types.ValueString (InstanceId (CreateRequest.Plan req)))) id
    = (Some database, None)
    /\ mapFields (Some database) (Some (CreateRequest.Plan req)) = (None, Some m).
Proof.
  rewrite Create_run. destruct (diag.HasError (Diagnostics resp)) eqn:HE.
  { intros [= <- <-]. congruence. }
  cbv zeta. destruct (CreateDatabase _ _ _ _) as [databaseResp [e|]].
  { intros [= <- <-] HErr. by rewrite addError_HasError in HErr. }
  destruct (returnedId databaseResp) as [id|] eqn:HR;
    [|intros [= <- <-] HErr; by rewrite addError_HasError in HErr].
  destruct (lookupIn _ _) as [databaseOpt [e|]] eqn:HLk.
  { intros [= <- <-] HErr. by rewrite addError_HasError in HErr. }
  destruct (lookupIn_no_error _ _ _ HLk) as [database ->].
  destruct (mapFields (Some database) (Some (CreateRequest.Plan req)))
    as [[e|] model'] eqn:Hmap; intros [= <- <-].
  { intros HErr. by rewrite addError_HasError in HErr. }
  destruct (mapFields_Some (Some database) (CreateRequest.Plan req)) as [m' Hm'].
  rewrite Hmap in Hm'. cbn in Hm'. subst model'. intros _ [= <-].
  by exists id, database.
Qed.

(** A [Read] of a record that the scan finds and the mapping leaves as it
    is stores that record. *)
Lemma Read_of_fixed_record (r : databaseResource) (m : Model)
    (database : InstanceDatabase.t) (resp : Response) (log : list ApiCall) :
  diag.HasError (Diagnostics resp) = false ->
  lookupIn
    (ListDatabases (client r)
       (types.ValueString (ProjectId m)) (types.ValueString (InstanceId m)))
    (types.ValueString (DatabaseId m))
  = (Some database, None) ->
  mapFields (Some database) (Some m) = (None, Some m) ->
  Read r (ReadRequest.mk m) resp log
  = (Returned (mkResponse (Some m) (Diagnostics resp)),
     (log ++ [CallListDatabases (types.ValueString (ProjectId m))
                (types.ValueString (InstanceId m))])%list).
Proof.
  intros HE HLk Hmap. rewrite Read_run, HE. cbn [ReadRequest.State].
  by rewrite HLk, Hmap.
Qed.

(** X23: [Read] is idempotent on a remote service that answers the same.
    When a [Read] stores a record without error, a [Read] of that record
    against the same client stores the same record again and reports
    nothing. *)
Theorem Read_then_Read_stable (r : databaseResource) (req : ReadRequest.t)
    (resp resp' : Response) (log log' : list ApiCall) (m : Model)
    (resp2 : Response) (log2 : list ApiCall) :
  Read r req resp log = (Returned resp', log') ->
  diag.HasError (Diagnostics resp') = false ->
  State resp' = Some m ->
  diag.HasError (Diagnostics resp2) = false ->
  Read r (ReadRequest.mk m) resp2 log2
  = (Returned (mkResponse (Some m) (Diagnostics resp2)),
     (log2 ++ [CallListDatabases
                 (types.ValueString (ProjectId (ReadRequest.State req)))
                 (types.ValueString (InstanceId (ReadRequest.State req)))])%list).
Proof.
  intros HR HE HS HE2.
  destruct (Read_stored_found _ _ _ _ _ _ _ HR HE HS) as (database & HLk & Hmap).
  destruct (lookupIn_found _ _ _ _ HLk) as (_ & _ & _ & _ & _ & _ & HId).
  destruct (mapFields_ok_fields _ _ _ Hmap)
    as (respId & HId' & Hne & HP & HI & HDb & _).
  rewrite HId in HId'. injection HId' as <-.
  assert (types.ValueString (DatabaseId m)
          = types.ValueString (DatabaseId (ReadRequest.State req))) as HD.
  { rewrite HDb. unfold resolvedDatabaseId. cbn. by destruct (nonEmpty _). }
  rewrite <- HP, <- HI.
  apply (Read_of_fixed_record r m database); [done | | by eapply mapFields_stable].
  by rewrite HP, HI, HD.
Qed.

(** X24: a refresh right after a create finds no drift.  When [Create]
    stores a record without error for a plan whose [DatabaseId] is unknown
    or null, a [Read] of that record against the same client stores the
    same record again and reports nothing. *)
Theorem Create_then_Read_stable (r : databaseResource) (req : CreateRequest.t)
    (resp resp' : Response) (log log' : list ApiCall) (m : Model)
    (resp2 : Response) (log2 : list ApiCall) :
  Create r req resp log = (Returned resp', log') ->
  diag.HasError (Diagnostics resp') = false ->
  State resp' = Some m ->
  types.ValueString (DatabaseId (CreateRequest.Plan req)) = "" ->
  diag.HasError (Diagnostics resp2) = false ->
  Read r (ReadRequest.mk m) resp2 log2
  = (Returned (mkResponse (Some m) (Diagnostics resp2)),
     (log2 ++ [CallListDatabases
                 (types.ValueString (ProjectId (CreateRequest.Plan req)))
                 (types.ValueString (InstanceId (CreateRequest.Plan req)))])%list).
Proof.
  intros HC HE HS Hplan HE2.
  destruct (Create_stored_found _ _ _ _ _ _ _ HC HE HS)
    as (id & database & HLk & Hmap).
  destruct (lookupIn_found _ _ _ _ HLk) as (_ & _ & _ & _ & _ & _ & HId).
  destruct (mapFields_ok_fields _ _ _ Hmap)
    as (respId & HId' & Hne & HP & HI & HDb & _).
  rewrite HId in HId'. injection HId' as <-.
  assert (types.ValueString (DatabaseId m) = id) as HD.
  { rewrite HDb. unfold resolvedDatabaseId. by rewrite Hplan. }
  rewrite <- HP, <- HI.
  apply (Read_of_fixed_record r m database); [done | | by eapply mapFields_stable].
  by rewrite HP, HI, HD.
Qed.

Lemma Read_then_Read_stable_witness :
  Read (mkDatabaseResource (listing [dbNoId; db1])) (ReadRequest.mk storedRecord)
       (mkResponse (Some storedRecord) []) []
  = (Returned (mkResponse (Some mappedRecord) []), [CallListDatabases "p" "i"])
  /\ Read (mkDatabaseResource (listing [dbNoId; db1])) (ReadRequest.mk mappedRecord)
          (mkResponse (Some mappedRecord) []) []
     = (Returned (mkResponse (Some mappedRecord) []), [CallListDatabases "p" "i"]).
Proof.
  split; [reflexivity |].
  exact (Read_then_Read_stable (mkDatabaseResource (listing [dbNoId; db1]))
           (ReadRequest.mk storedRecord) (mkResponse (Some storedRecord) [])
           _ [] _ mappedRecord (mkResponse (Some mappedRecord) []) []
           eq_refl eq_refl eq_refl eq_refl).
Defined.

Lemma Create_then_Read_stable_witness :
  Create (mkDatabaseResource (listing [db1])) (CreateRequest.mk plannedRecord)
         (mkResponse None []) []
  = (Returned (mkResponse (Some mappedRecord) []),
     [CallCreateDatabase "p" "i" (payloadOf plannedRecord);
      CallListDatabases "p" "i"])
  /\ Read (mkDatabaseResource (listing [db1])) (ReadRequest.mk mappedRecord)
          (mkResponse (Some mappedRecord) []) []
     = (Returned (mkResponse (Some mappedRecord) []), [CallListDatabases "p" "i"]).
Proof.
  split; [reflexivity |].
  exact (Create_then_Read_stable (mkDatabaseResource (listing [db1]))
           (CreateRequest.mk plannedRecord) (mkResponse None [])
           _ [] _ mappedRecord (mkResponse (Some mappedRecord) []) []
           eq_refl eq_refl eq_refl eq_refl eq_refl).
Defined.

(** ** The scan among elements without an [Id], on [getDatabase] itself *)

Lemma matches_false (databaseId : string) (database : InstanceDatabase.t) :
  matches databaseId database = false
  <-> InstanceDatabase.Id database <> Some databaseId.
Proof.
  rewrite <- matches_true. by destruct (matches databaseId database).
Qed.

(** [find] passes over a prefix that fails the test. *)
Lemma find_behind {A} (f : A -> bool) (before after : list A) (x : A) :
  Forall (fun y => f y = false) before -> f x = true ->
  List.find f (before ++ x :: after)%list = Some x.
Proof.
  intros Hb Hx. induction Hb as [|y before Hy _ IH]; cbn.
  - by rewrite Hx.
  - by rewrite Hy.
Qed.

Lemma find_nowhere {A} (f : A -> bool) (l : list A) :
  Forall (fun y => f y = false) l -> List.find f l = None.
Proof.
  intros H. induction H as [|y l Hy _ IH]; cbn; [done |]. by rewrite Hy.
Qed.

(** C10: over every list the list call returns, elements without an [Id]
    included, [getDatabase] returns after the one list call: no nil [Id] is
    dereferenced.  What it returns as a match has the target as its [Id],
    so an element without an [Id] is never returned.  An element with the
    target [Id] is found wherever it stands, behind any elements without an
    [Id] and any elements with another [Id], as long as no element before
    it has the target [Id]; there is no match exactly when no element has
    the target [Id].  The elements without an [Id] are skipped: the result
    is that of [getDatabase] over the same list without them. *)
Theorem getDatabase_skips_null_ids (client : APIClient)
    (projectId instanceId databaseId : string)
    (databases : list InstanceDatabase.t) (log : list ApiCall) :
  ListDatabases client projectId instanceId
  = (Some (InstanceListDatabasesResponse.mk (Some databases)), None) ->
  exists out,
    getDatabase client projectId instanceId databaseId log
    = (Returned out, (log ++ [CallListDatabases projectId instanceId])%list)
    /\ match out.1 with
       | Some database => InstanceDatabase.Id database = Some databaseId
       | None => True
       end
    /\ (forall before database after,
          databases = (before ++ database :: after)%list ->
          InstanceDatabase.Id database = Some databaseId ->
          Forall (fun d => InstanceDatabase.Id d <> Some databaseId) before ->
          out = (Some database, None))
    /\ (Forall (fun d => InstanceDatabase.Id d <> Some databaseId) databases ->
        out = (None, Some (Errorf "database not found")))
    /\ (forall client',
          ListDatabases client' projectId instanceId
          = (Some (InstanceListDatabasesResponse.mk
                     (Some (List.filter
                              (fun d => notNil (InstanceDatabase.Id d))
                              databases))), None) ->
          getDatabase client' projectId instanceId databaseId log
          = (Returned out,
             (log ++ [CallListDatabases projectId instanceId])%list)).
Proof.
  intros H. rewrite (getDatabase_listed _ _ _ _ _ _ H), getDatabase_range_find.
  eexists. split; [reflexivity |]. split; [|split; [|split]].
  - pose proof (find_first (matches databaseId) databases) as Hfind.
    destruct (List.find (matches databaseId) databases) as [x|]; [|done].
    destruct Hfind as (_ & _ & _ & Hm & _). by apply matches_true.
  - intros before database after -> HId Hbefore.
    rewrite find_behind; [done | | by apply matches_true].
    eapply Forall_impl; [exact Hbefore |]. intros d Hd. by apply matches_false.
  - intros Hnone. rewrite find_nowhere; [done |].
    eapply Forall_impl; [exact Hnone |]. intros d Hd. by apply matches_false.
  - intros client' H'. rewrite (getDatabase_listed _ _ _ _ _ _ H').
    destruct (getDatabase_range_null_ids databases databaseId
                (log ++ [CallListDatabases projectId instanceId])%list)
      as (_ & <- & _).
    apply getDatabase_range_find.
Qed.

Lemma getDatabase_skips_null_ids_witness :
  ListDatabases (listing [dbNoId; dbOther; dbNoId; db1; dbNoId]) "p" "i"
  = (Some (InstanceListDatabasesResponse.mk
             (Some [dbNoId; dbOther; dbNoId; db1; dbNoId])), None)
  /\ getDatabase (listing [dbNoId; dbOther; dbNoId; db1; dbNoId]) "p" "i" "db-1" []
     = (Returned (Some db1, None), [CallListDatabases "p" "i"])
  /\ getDatabase (listing [dbOther; db1]) "p" "i" "db-1" []
     = (Returned (Some db1, None), [CallListDatabases "p" "i"]).
Proof.
  split; [reflexivity |].
  destruct (getDatabase_skips_null_ids
              (listing [dbNoId; dbOther; dbNoId; db1; dbNoId]) "p" "i" "db-1"
              [dbNoId; dbOther; dbNoId; db1; dbNoId] [] eq_refl)
    as (out & Hget & _ & Hfound & _ & Hskip).
  assert (out = (Some db1, None)) as ->.
  { apply (Hfound [dbNoId; dbOther; dbNoId] db1 [dbNoId] eq_refl eq_refl).
    repeat constructor; discriminate. }
  split; [exact Hget |]. exact (Hskip (listing [dbOther; db1]) eq_refl).
Defined.

(** ** The handlers on a resource that may not be configured *)

(** X7: through a nil client [getDatabase] panics before any remote call.
    With a client it returns after exactly the list call, with either a
    database or an error and never both or neither; the error of a failed
    list call is handed on as it is, and an answer without a response or
    without a list gives the error [response is nil]. *)
Theorem getDatabase_database_or_error (client : option APIClient)
    (projectId instanceId databaseId : string) (log : list ApiCall) :
  match client with
  | None =>
      getDatabase_ptr None projectId instanceId databaseId log = (Panicked, log)
  | Some c =>
      exists out,
        getDatabase_ptr (Some c) projectId instanceId databaseId log
        = (Returned out, (log ++ [CallListDatabases projectId instanceId])%list)
        /\ (is_Some out.1 <-> out.2 = None)
        /\ let '(resp, err) := ListDatabases c projectId instanceId in
           match err with
           | Some e => out = (None, Some e)
           | None =>
               match resp with
               | None => out = (None, Some (Errorf "response is nil"))
               | Some resp =>
                   InstanceListDatabasesResponse.Databases resp = None ->
                   out = (None, Some (Errorf "response is nil"))
               end
           end
  end.
Proof.
  destruct client as [c|]; [|reflexivity].
  change (getDatabase_ptr (Some c) projectId instanceId databaseId log)
    with (getDatabase c projectId instanceId databaseId log).
  apply getDatabase_configured.
Qed.

(** X9: the remote calls of [Read].  When the response already carries an
    error it returns the response as it is and makes no call, configured or
    not.  Otherwise, on a resource whose client is nil it panics before any
    call, and on a configured resource it returns after exactly one call,
    the list call for the stored project and instance: never a create or a
    delete call. *)
Theorem Read_calls_list_once (client : option APIClient) (req : ReadRequest.t)
    (resp : Response) (log : list ApiCall) :
  if diag.HasError (Diagnostics resp)
  then Read_ptr client req resp log = (Returned resp, log)
  else
    match client with
    | None => Read_ptr None req resp log = (Panicked, log)
    | Some c =>
        exists resp',
          Read_ptr (Some c) req resp log
          = (Returned resp',
             (log ++ [CallListDatabases
                        (types.ValueString (ProjectId (ReadRequest.State req)))
                        (types.ValueString (InstanceId (ReadRequest.State req)))])%list)
          /\ Read (mkDatabaseResource c) req resp log
             = Read_ptr (Some c) req resp log
    end.
Proof.
  unfold Read_ptr. destruct (diag.HasError (Diagnostics resp)) eqn:HE;
    [done |].
  destruct client as [c|]; [|reflexivity].
  change ((c0 ← deref (Some c); Read (mkDatabaseResource c0) req resp) log)
    with (Read (mkDatabaseResource c) req resp log).
  rewrite Read_run, HE. by eexists.
Qed.

(** X13: the remote calls of [Create].  When the response already carries
    an error it returns the response as it is and makes no call.  Otherwise,
    on a resource whose client is nil it panics before any call; on a
    configured resource it returns, its first call is the create call for
    the planned project and instance with the payload built from the plan,
    and the only other call it can make is the list call, which it makes
    exactly when the create call returned without an error an id that is
    not empty.  It never calls delete. *)
Theorem Create_calls (client : option APIClient) (req : CreateRequest.t)
    (resp : Response) (log : list ApiCall) :
  if diag.HasError (Diagnostics resp)
  then Create_ptr client req resp log = (Returned resp, log)
  else
    match client with
    | None => Create_ptr None req resp log = (Panicked, log)
    | Some c =>
        exists resp' payload rest,
          toCreatePayload (Some (CreateRequest.Plan req)) = (Some payload, None)
          /\ Create_ptr (Some c) req resp log
             = (Returned resp',
                (log ++ CallCreateDatabase
                          (types.ValueString (ProjectId (CreateRequest.Plan req)))
                          (types.ValueString (InstanceId (CreateRequest.Plan req)))
                          payload :: rest)%list)
          /\ (rest = []
              \/ rest = [CallListDatabases
                           (types.ValueString (ProjectId (CreateRequest.Plan req)))
                           (types.ValueString (InstanceId (CreateRequest.Plan req)))])
          /\ (rest <> []
              <-> exists created id,
                    CreateDatabase c
                      (types.ValueString (ProjectId (CreateRequest.Plan req)))
                      (types.ValueString (InstanceId (CreateRequest.Plan req)))
                      payload
                    = (Some created, None)
                    /\ InstanceCreateDatabaseResponse.Id created = Some id
                    /\ id <> "")
    end.
Proof.
  unfold Create_ptr. destruct (diag.HasError (Diagnostics resp)) eqn:HE;
    [done |].
  destruct client as [c|]; [|reflexivity].
  change ((c0 ← deref (Some c); Create (mkDatabaseResource c0) req resp) log)
    with (Create (mkDatabaseResource c) req resp log).
  exact (Create_calls_configured (mkDatabaseResource c) req resp log HE).
Qed.

(** X16: [Delete] never writes the state.  When the response already
    carries an error it returns the response as it is and makes no call.
    Otherwise, on a resource whose client is nil it panics before any call;
    on a configured resource it returns after exactly one call, the delete
    call for the three stored identifiers, and it reports an error exactly
    when that call fails. *)
Theorem Delete_calls_once_and_keeps_state (client : option APIClient)
    (req : DeleteRequest.t) (resp : Response) (log : list ApiCall) :
  if diag.HasError (Diagnostics resp)
  then Delete_ptr client req resp log = (Returned resp, log)
  else
    match client with
    | None => Delete_ptr None req resp log = (Panicked, log)
    | Some c =>
        exists resp',
          Delete_ptr (Some c) req resp log
          = (Returned resp',
             (log ++ [CallDeleteDatabase
                        (types.ValueString (ProjectId (DeleteRequest.State req)))
                        (types.ValueString (InstanceId (DeleteRequest.State req)))
                        (types.ValueString (DatabaseId (DeleteRequest.State req)))])%list)
          /\ State resp' = State resp
          /\ (diag.HasError (Diagnostics resp') = true
              <-> DeleteDatabase c
                    (types.ValueString (ProjectId (DeleteRequest.State req)))
                    (types.ValueString (InstanceId (DeleteRequest.State req)))
                    (types.ValueString (DatabaseId (DeleteRequest.State req)))
                  <> None)
    end.
Proof.
  unfold Delete_ptr. destruct (diag.HasError (Diagnostics resp)) eqn:HE;
    [done |].
  destruct client as [c|]; [|reflexivity].
  change ((c0 ← deref (Some c); Delete (mkDatabaseResource c0) req resp) log)
    with (Delete (mkDatabaseResource c) req resp log).
  destruct (Delete_configured (mkDatabaseResource c) req resp log)
    as (resp' & HD & HS & Hiff).
  rewrite HE in HD. exists resp'. split; [exact HD |]. split; [exact HS |].
  exact (Hiff HE).
Qed.

Lemma Create_calls_witness :
  Create_ptr None (CreateRequest.mk plannedRecord) (mkResponse None []) []
  = (Panicked, [])
  /\ exists resp' payload rest,
       toCreatePayload (Some plannedRecord) = (Some payload, None)
       /\ Create_ptr (Some (listing [db1])) (CreateRequest.mk plannedRecord)
            (mkResponse None []) []
          = (Returned resp', CallCreateDatabase "p" "i" payload :: rest)
       /\ rest = [CallListDatabases "p" "i"].
Proof.
  split.
  - exact (Create_calls None (CreateRequest.mk plannedRecord)
             (mkResponse None []) []).
  - destruct (Create_calls (Some (listing [db1]))
                (CreateRequest.mk plannedRecord) (mkResponse None []) [])
      as (resp' & payload & rest & Hp & HC & [Hrest | Hrest] & Hiff).
    + exfalso. apply (proj2 Hiff); [|exact Hrest].
      exists (InstanceCreateDatabaseResponse.mk (Some "db-1")), "db-1".
      split; [reflexivity |]. split; [reflexivity | discriminate].
    + exists resp', payload, rest. split; [exact Hp |].
      split; [exact HC | exact Hrest].
Defined.
